(** * NetConfig Automation: configuration manager

    A shallow embedding of [netconfig/core/config_manager.py]
    (rollback, dry-run validation, compliance checking) together with
    the properties of it that the specification states. *)

From Stdlib Require Import ZArith String Ascii List Lia Bool.
From Stdlib.Floats Require Import SpecFloat.
From stdpp Require Import base option list strings gmap.

Local Open Scope string_scope.

(** ** Python values the module relies on *)

(** A call either returns a value or raises an exception; the exception
    is kept as the text that [str(e)] gives. *)
Inductive pyresult (A : Type) : Type :=
| Returns (a : A)
| Raises (e : string).
Arguments Returns {A} a.
Arguments Raises {A} e.

Module PyStr.

Definition newline : ascii := "010"%char.
Definition nl : string := String newline "".

(** [s.split(sep)] for a one-character separator: never the empty
    list, and an empty piece between two adjacent separators. *)
Fixpoint split (sep : ascii) (s : string) : list string :=
  match s with
  | EmptyString => [""]
  | String c r =>
      if Ascii.eqb c sep then "" :: split sep r
      else match split sep r with
           | h :: t => String c h :: t
           | [] => [String c ""]
           end
  end.

(** [sep.join(l)] *)
Fixpoint join (sep : string) (l : list string) : string :=
  match l with
  | [] => ""
  | x :: rest =>
      match rest with
      | [] => x
      | _ :: _ => x +:+ sep +:+ join sep rest
      end
  end.

(** [pat in text]: [pat] occurs at some offset of [text]. *)
Fixpoint contains (pat text : string) : bool :=
  match text with
  | EmptyString => String.prefix pat ""
  | String _ r => String.prefix pat text || contains pat r
  end.

(** The mathematical reading of [in]. *)
Definition substring_of (pat text : string) : Prop :=
  exists pre post, text = pre +:+ pat +:+ post.

End PyStr.

(** Sequencing of calls that may raise: the first exception wins. *)
#[global] Instance pyresult_bind : MBind pyresult :=
  fun A B (k : A -> pyresult B) (c : pyresult A) =>
    match c with
    | Returns a => k a
    | Raises e => Raises e
    end.

(** Python floats are IEEE binary64; the arithmetic is the correctly
    rounded one of [SpecFloat]. *)
Module PyFloat.

Definition prec : Z := 53.
Definition emax : Z := 1024.

(** The float closest to [a / b] for two non-negative [int]s, as
    [a / b] computes it; division by zero raises. *)
Definition truediv (a b : Z) : pyresult spec_float :=
  match a, b with
  | _, Z0 => Raises "division by zero"
  | Z0, Zpos _ => Returns (S754_zero false)
  | Z0, Zneg _ => Returns (S754_zero true)
  | Zpos p, Zpos q => Returns (SFdiv prec emax (S754_finite false p 0) (S754_finite false q 0))
  | Zneg p, Zneg q => Returns (SFdiv prec emax (S754_finite false p 0) (S754_finite false q 0))
  | Zpos p, Zneg q => Returns (SFdiv prec emax (S754_finite true p 0) (S754_finite false q 0))
  | Zneg p, Zpos q => Returns (SFdiv prec emax (S754_finite true p 0) (S754_finite false q 0))
  end.

(** [x * n] for a float [x] and an [int] [n] that a float holds exactly. *)
Definition mul_int (x : spec_float) (n : Z) : spec_float :=
  SFmul prec emax x (binary_normalize prec emax n 0 false).

(** The integer closest to [num / den], ties to the even one. *)
Definition div_half_even (num den : Z) : Z :=
  let q := (num / den)%Z in
  let r := (num mod den)%Z in
  match (2 * r ?= den)%Z with
  | Lt => q
  | Gt => (q + 1)%Z
  | Eq => if Z.even q then q else (q + 1)%Z
  end.

(** The float closest to [k / 10]. *)
Definition of_tenths (s : bool) (k : Z) : spec_float :=
  match k with
  | Zpos p => SFdiv prec emax (S754_finite s p 0) (S754_finite false 10 0)
  | _ => S754_zero s
  end.

(** How many tenths [round(x, 1)] keeps of a finite [m * 2^e]. *)
Definition tenths (m : positive) (e : Z) : Z :=
  if (0 <=? e)%Z then (10 * Zpos m * 2 ^ e)%Z
  else div_half_even (10 * Zpos m) (2 ^ (- e)).

(** [round(x, 1)] on a float: the decimal with one digit closest to
    the exact value of [x], ties to even, read back as a float. *)
Definition round1 (x : spec_float) : spec_float :=
  match x with
  | S754_finite s m e =>
      if (0 <=? e)%Z then x else of_tenths s (tenths m e)
  | _ => x
  end.

End PyFloat.

(** A Python number: [round] keeps an [int] an [int]. *)
Inductive pynum : Type :=
| PyInt (z : Z)
| PyFloat (f : spec_float).

(** [round(x, 1)] *)
Definition py_round1 (x : pynum) : pynum :=
  match x with
  | PyInt z => PyInt z
  | PyFloat f => PyFloat (PyFloat.round1 f)
  end.

(** ** Data model *)

(** An inventory device, the dict that the device manager hands out. *)
Record Device : Type := mkDevice {
  name : string;
  device_type : string;
  ip_address : string;
  username : string;
  password : string;
  port : option Z
}.

(** A row of the [Configuration] table. *)
Record Configuration : Type := mkConfiguration {
  id : string;
  device_id : string;
  deployment_id : option string;
  configuration : string;
  applied : bool
}.

(** One entry of the compliance policy mapping; every key is optional. *)
Record CompliancePolicy : Type := mkPolicy {
  pol_description : option string;
  pol_check_type : option string;
  pol_pattern : option string;
  pol_severity : option string
}.

Record ConnectionParams : Type := mkConnectionParams {
  cp_device_type : string;
  cp_host : string;
  cp_username : string;
  cp_password : string;
  cp_port : Z;
  cp_timeout : Z;
  cp_session_timeout : Z;
  cp_auth_timeout : Z;
  cp_banner_timeout : Z;
  cp_conn_timeout : Z
}.

(** What [backup_manager.create_backup] answers. *)
Record BackupResult : Type := mkBackupResult {
  bk_success : bool;
  bk_backup_id : option string;
  bk_error : option string
}.

(** What [_execute_deployment] answers; both keys are read with [get]. *)
Record PushResult : Type := mkPushResult {
  push_success : option bool;
  push_message : option string
}.

(** What [validate_configuration] answers. *)
Record ValidationResult : Type := mkValidationResult {
  valid : option bool;
  errors : option (list string);
  warnings : option (list string)
}.

(** The answer of [_get_device_configuration]. *)
Inductive ConfigFetch : Type :=
| FetchOk (configuration : string)
| FetchFailed (error : string).

(** The per-device dict of a rollback: the one built after the push, and
    the one that reports a fault. *)
Inductive RollbackOutcome : Type :=
| Pushed (device : string) (success : bool) (message : string)
         (backup_id : option string) (timestamp : string)
| Faulted (device : string) (error : string) (timestamp : string).

(** [r['device']] *)
Definition outcome_device (r : RollbackOutcome) : string :=
  match r with
  | Pushed d _ _ _ _ => d
  | Faulted d _ _ => d
  end.

(** [r.get('success')] *)
Definition outcome_success (r : RollbackOutcome) : bool :=
  match r with
  | Pushed _ s _ _ _ => s
  | Faulted _ _ _ => false
  end.

Record RollbackSummary : Type := mkSummary {
  total_devices : Z;
  successful : Z;
  failed : Z
}.

(** What [rollback_config] returns: the top-level error dict, or the
    batch dict with the per-device list. *)
Inductive RollbackResult : Type :=
| RollbackError (error : string)
| RollbackBatch (success : bool) (results : list RollbackOutcome)
                (summary : RollbackSummary).

Record ComplianceIssue : Type := mkIssue {
  issue_policy : string;
  issue_description : string;
  issue_severity : string
}.

Inductive ComplianceResult : Type :=
| ComplianceReport (device : string) (compliant : bool) (score : pynum)
                   (issues_count : nat) (issues : list ComplianceIssue)
                   (timestamp : string)
| ComplianceError (device : string) (error : string) (timestamp : string).

Inductive ValidateResult : Type :=
| ValidateError (error : string)
| ValidateReport (success : bool) (preview : string)
                 (validation_errors : list string) (warnings : list string).

(** A call that reaches a device, as a worker makes it. *)
Inductive GatewayCall : Type :=
| BackupAttempt (device : string)
| ConfigPush (params : ConnectionParams) (config_text : string).

(** ** The manager and what it reaches *)

Record DeviceManager : Type := mkDeviceManager {
  get_all_devices : list Device;
  get_device_by_name : string -> option Device;
  get_device : string -> option Device
}.

Record BackupManager : Type := mkBackupManager {
  create_backup : Device -> pyresult BackupResult
}.

(** [self] with the collaborators of the module: inventory, backups,
    the template directory and renderer, the [Configuration] table with
    the fault a session may raise, the policy file (absent, or a fault
    on reading it), the device transport, the validator, [re.search],
    the clock, and the fault the log call at the head of a rollback
    worker may raise. *)
Record ConfigManager : Type := mkConfigManager {
  device_manager : DeviceManager;
  backup_manager : BackupManager;
  template_dir : string -> pyresult (option string);
  jinja_env : string -> gmap string string -> pyresult string;
  db_table : list Configuration;
  db_lookup_fault : option string;
  db_history_fault : option string;
  compliance_policies_yaml : pyresult (option (list (string * CompliancePolicy)));
  send_show_running_config : ConnectionParams -> pyresult string;
  _execute_deployment : ConnectionParams -> string -> pyresult PushResult;
  validate_configuration : string -> string -> pyresult ValidationResult;
  re_search : string -> string -> pyresult bool;
  utcnow_isoformat : string;
  logger_info_fault : Device -> option string
}.

(** ** Helper methods *)

(** [_load_template]: the file's text, [None] when it is absent or
    reading it raises. *)
Definition _load_template (self : ConfigManager) (template_name : string) : option string :=
  match template_dir self template_name with
  | Returns o => o
  | Raises _ => None
  end.

Definition _render_template (self : ConfigManager) (template_content : string)
    (variables : gmap string string) : pyresult string :=
  jinja_env self template_content variables.

(** [_get_target_devices] *)
Definition _get_target_devices (self : ConfigManager) (devices : list string) : list Device :=
  if decide (devices = ["all"]) then get_all_devices (device_manager self)
  else omap (get_device_by_name (device_manager self)) devices.

(** [_get_connection_params] *)
Definition _get_connection_params (device : Device) : ConnectionParams :=
  {| cp_device_type := device_type device;
     cp_host := ip_address device;
     cp_username := username device;
     cp_password := password device;
     cp_port := default 22%Z (port device);
     cp_timeout := 30;
     cp_session_timeout := 60;
     cp_auth_timeout := 30;
     cp_banner_timeout := 15;
     cp_conn_timeout := 10 |}.

(** [_create_device_backup]: the backup manager's answer, or a failure
    dict without a backup id when it raises. *)
Definition _create_device_backup (self : ConfigManager) (device : Device) : BackupResult :=
  match create_backup (backup_manager self) device with
  | Returns backup_result => backup_result
  | Raises e => {| bk_success := false; bk_backup_id := None; bk_error := Some e |}
  end.

(** [_get_device_configuration] *)
Definition _get_device_configuration (self : ConfigManager)
    (connection_params : ConnectionParams) : ConfigFetch :=
  match send_show_running_config self connection_params with
  | Returns configuration => FetchOk configuration
  | Raises e => FetchFailed e
  end.

(** The policies built in for when no policy file exists. *)
Definition default_policies : list (string * CompliancePolicy) :=
  [ ("ssh_enabled",
      {| pol_description := Some "SSH should be enabled";
         pol_check_type := Some "contains";
         pol_pattern := Some "ip ssh version 2";
         pol_severity := Some "high" |});
    ("no_telnet",
      {| pol_description := Some "Telnet should be disabled";
         pol_check_type := Some "not_contains";
         pol_pattern := Some "transport input telnet";
         pol_severity := Some "high" |});
    ("banner_configured",
      {| pol_description := Some "Login banner should be configured";
         pol_check_type := Some "contains";
         pol_pattern := Some "banner login";
         pol_severity := Some "medium" |}) ].

(** [_load_compliance_policies] *)
Definition _load_compliance_policies (self : ConfigManager) : list (string * CompliancePolicy) :=
  match compliance_policies_yaml self with
  | Returns (Some loaded) => loaded
  | Returns None => default_policies
  | Raises _ => []
  end.

(** [_check_policy_compliance] *)
Definition _check_policy_compliance (self : ConfigManager) (config_lines : list string)
    (policy : CompliancePolicy) : pyresult bool :=
  let check_type := default "contains" (pol_check_type policy) in
  let pattern := default "" (pol_pattern policy) in
  let config_text := PyStr.join PyStr.nl config_lines in
  if String.eqb check_type "contains" then
    Returns (PyStr.contains pattern config_text)
  else if String.eqb check_type "not_contains" then
    Returns (negb (PyStr.contains pattern config_text))
  else if String.eqb check_type "regex" then
    re_search self pattern config_text
  else if String.eqb check_type "line_exists" then
    Returns (existsb (PyStr.contains pattern) config_lines)
  else
    Returns true.

(** The loop of [_check_device_compliance] over [policies.items()]. *)
Fixpoint compliance_issues (self : ConfigManager) (config_lines : list string)
    (policies : list (string * CompliancePolicy)) : pyresult (list ComplianceIssue) :=
  match policies with
  | [] => Returns []
  | (policy_name, policy) :: rest =>
      ok ← _check_policy_compliance self config_lines policy;
      issues ← compliance_issues self config_lines rest;
      Returns (if ok : bool then issues
               else {| issue_policy := policy_name;
                       issue_description := default "" (pol_description policy);
                       issue_severity := default "medium" (pol_severity policy) |} :: issues)
  end.

(** The score before rounding: [passed / total * 100], or the [int] 0
    when there is no policy. *)
Definition compliance_score (passed_policies total_policies : Z) : pyresult pynum :=
  if (0 <? total_policies)%Z then
    q ← PyFloat.truediv passed_policies total_policies;
    Returns (PyFloat (PyFloat.mul_int q 100))
  else Returns (PyInt 0).

(** [_check_device_compliance] *)
Definition _check_device_compliance (self : ConfigManager) (device : Device)
    (policies : list (string * CompliancePolicy)) : ComplianceResult :=
  let connection_params := _get_connection_params device in
  match _get_device_configuration self connection_params with
  | FetchFailed e => ComplianceError (name device) e (utcnow_isoformat self)
  | FetchOk configuration =>
      let config_lines := PyStr.split PyStr.newline configuration in
      let body :=
        issues ← compliance_issues self config_lines policies;
        let total_policies := Z.of_nat (length policies) in
        let passed_policies := (total_policies - Z.of_nat (length issues))%Z in
        score ← compliance_score passed_policies total_policies;
        Returns (ComplianceReport (name device)
                   (Nat.eqb (length issues) 0)
                   (py_round1 score)
                   (length issues)
                   issues
                   (utcnow_isoformat self)) in
      match body with
      | Returns report => report
      | Raises e => ComplianceError (name device) e (utcnow_isoformat self)
      end
  end.

(** ** Dry-run validation *)

(** [d.update(other)]: every key of [other] is written into [d], in
    order, over whatever [d] held for it. *)
Definition dict_update (d : gmap string string) (other : list (string * string)) : gmap string string :=
  foldl (fun m kv => <[kv.1 := kv.2]> m) d other.

(** The placeholders that [validate_config] writes into the variables. *)
Definition sample_placeholders : list (string * string) :=
  [ ("hostname", "sample-device");
    ("management_ip", "192.168.1.1");
    ("device_type", "cisco_ios") ].

(** [sample_variables] as [validate_config] builds it: the caller's
    dict itself (a fresh one for [None] or an empty dict), updated with
    the placeholders. *)
Definition sample_variables (variables : option (gmap string string)) : gmap string string :=
  dict_update (default ∅ variables) sample_placeholders.

(** [validate_config] *)
Definition validate_config (self : ConfigManager) (template : string)
    (devices : list string) (variables : option (gmap string string)) : ValidateResult :=
  match _load_template self template with
  | None => ValidateError ("Template " +:+ template +:+ " not found")
  | Some template_content =>
      if String.eqb template_content "" then
        ValidateError ("Template " +:+ template +:+ " not found")
      else
        let body :=
          rendered_config ← _render_template self template_content (sample_variables variables);
          validation_result ← validate_configuration self rendered_config "cisco_ios";
          Returns (ValidateReport (default false (valid validation_result))
                     rendered_config
                     (default [] (errors validation_result))
                     (default [] (warnings validation_result))) in
        match body with
        | Returns r => r
        | Raises e => ValidateError ("Validation failed: " +:+ e)
        end
  end.

(** ** Rollback *)

(** [_rollback_device_config], inside [async with semaphore]: what the
    task yields when awaited, and the device calls it made, in order. *)
Definition _rollback_device_config (self : ConfigManager) (device : Device)
    (config : Configuration) : pyresult RollbackOutcome * list GatewayCall :=
  let device_name := name device in
  match logger_info_fault self device with
  | Some e => (Raises e, [])
  | None =>
      let backup_result := _create_device_backup self device in
      let connection_params := _get_connection_params device in
      let calls := [BackupAttempt device_name;
                    ConfigPush connection_params (configuration config)] in
      match _execute_deployment self connection_params (configuration config) with
      | Returns result =>
          (Returns (Pushed device_name
                      (default false (push_success result))
                      (default "" (push_message result))
                      (bk_backup_id backup_result)
                      (utcnow_isoformat self)),
           calls)
      | Raises e =>
          (Returns (Faulted device_name e (utcnow_isoformat self)), calls)
      end
  end.

(** [_get_devices_from_deployment]: the devices of the rows stored
    under the deployment, in row order, without those the inventory no
    longer has; the empty list when the session raises. *)
Definition _get_devices_from_deployment (self : ConfigManager)
    (deployment : option string) : list Device :=
  match db_history_fault self with
  | Some _ => []
  | None =>
      let configs := List.filter (fun c => bool_decide (deployment_id c = deployment)) (db_table self) in
      let device_ids := map device_id configs in
      omap (get_device (device_manager self)) device_ids
  end.

(** [session.query(Configuration).filter_by(id=config_id).first()] *)
Definition query_configuration (self : ConfigManager) (config_id : string) : pyresult (option Configuration) :=
  match db_lookup_fault self with
  | Some e => Raises e
  | None => Returns (List.find (fun c => String.eqb (id c) config_id) (db_table self))
  end.

(** The target devices of a rollback: the explicit list when one is
    given and not empty, the deployment's devices otherwise. *)
Definition rollback_targets (self : ConfigManager) (config : Configuration)
    (devices : option (list string)) : list Device :=
  match devices with
  | Some (d :: ds) => _get_target_devices self (d :: ds)
  | _ => _get_devices_from_deployment self (deployment_id config)
  end.

(** The loop over [enumerate(rollback_results)], from index [i] on: an
    exception becomes the failure dict of the device at its index. *)
Fixpoint process_results (self : ConfigManager) (target_devices : list Device) (i : nat)
    (rollback_results : list (pyresult RollbackOutcome)) : pyresult (list RollbackOutcome) :=
  match rollback_results with
  | [] => Returns []
  | result :: rest =>
      r ← match result with
          | Raises e =>
              match target_devices !! i with
              | Some device => Returns (Faulted (name device) e (utcnow_isoformat self))
              | None => Raises "list index out of range"
              end
          | Returns r => Returns r
          end;
      results ← process_results self target_devices (S i) rest;
      Returns (r :: results)
  end.

(** [sum(1 for r in results if r.get('success'))] *)
Definition successful_rollbacks (results : list RollbackOutcome) : Z :=
  foldr Z.add 0%Z (map (fun _ => 1%Z) (List.filter outcome_success results)).

(** The batch dict built from the processed results. *)
Definition batch_result (results : list RollbackOutcome) : RollbackResult :=
  let successful_rollbacks := successful_rollbacks results in
  RollbackBatch (0 <? successful_rollbacks)%Z results
    {| total_devices := Z.of_nat (length results);
       successful := successful_rollbacks;
       failed := (Z.of_nat (length results) - successful_rollbacks)%Z |}.

(** The tasks of a rollback batch, one per target device, in order. *)
Definition rollback_tasks (self : ConfigManager) (config : Configuration)
    (target_devices : list Device) : list (pyresult RollbackOutcome * list GatewayCall) :=
  map (fun device => _rollback_device_config self device config) target_devices.

(** [rollback_config]: the returned dict, and for each task that was
    created the device calls it made. [asyncio.gather] with
    [return_exceptions=True] hands back what each task yielded, in the
    order of the tasks. *)
Definition rollback_config (self : ConfigManager) (config_id : string)
    (devices : option (list string)) : RollbackResult * list (list GatewayCall) :=
  match query_configuration self config_id with
  | Raises e => (RollbackError ("Rollback failed: " +:+ e), [])
  | Returns None => (RollbackError ("Configuration " +:+ config_id +:+ " not found"), [])
  | Returns (Some config) =>
      let target_devices := rollback_targets self config devices in
      match target_devices with
      | [] => (RollbackError "No valid devices found", [])
      | _ :: _ =>
          let tasks := rollback_tasks self config target_devices in
          let rollback_results := map fst tasks in
          match process_results self target_devices 0 rollback_results with
          | Returns results => (batch_result results, map snd tasks)
          | Raises e => (RollbackError ("Rollback failed: " +:+ e), map snd tasks)
          end
      end
  end.

(** ** The rollback batch under its semaphore

    The tasks of a batch all wait on one [asyncio.Semaphore(5)]. A task
    is queued until it enters [async with semaphore], in flight while
    inside (the backup and the push happen there), and done once it has
    left, with what it yielded kept at its own position for [gather]. *)
Module Pool.

Inductive slot (R : Type) : Type :=
| Queued
| InFlight
| Done (r : R).
Arguments Queued {R}.
Arguments InFlight {R}.
Arguments Done {R} r.

Record pool (R : Type) : Type := mkPool {
  sem_value : nat;
  slots : list (slot R)
}.
Arguments mkPool {R} _ _.
Arguments sem_value {R} _.
Arguments slots {R} _.

(** The argument of [asyncio.Semaphore(5)]. *)
Definition semaphore_limit : nat := 5.

(** The state after the tasks were created and handed to [gather]. *)
Definition submit {R} (tasks : list R) : pool R :=
  {| sem_value := semaphore_limit; slots := map (fun _ => Queued) tasks |}.

(** A queued task acquires the semaphore when its value is positive;
    a task in flight releases it when it returns or raises. *)
Inductive step {R} (tasks : list R) : pool R -> pool R -> Prop :=
| step_acquire (p : pool R) (i : nat) :
    slots p !! i = Some Queued ->
    0 < sem_value p ->
    step tasks p {| sem_value := sem_value p - 1; slots := <[i := InFlight]> (slots p) |}
| step_release (p : pool R) (i : nat) (r : R) :
    slots p !! i = Some InFlight ->
    tasks !! i = Some r ->
    step tasks p {| sem_value := S (sem_value p); slots := <[i := Done r]> (slots p) |}.

Definition is_in_flight {R} (s : slot R) : bool :=
  match s with InFlight => true | _ => false end.

(** How many tasks are inside [async with semaphore]. *)
Definition in_flight {R} (p : pool R) : nat :=
  length (List.filter is_in_flight (slots p)).

(** What [gather] returns once every task is done. *)
Definition gathered {R} (p : pool R) : option (list R) :=
  mapM (fun s => match s with Done r => Some r | _ => None end) (slots p).

(** Steps a task still has to take. *)
Definition slot_weight {R} (s : slot R) : nat :=
  match s with Queued => 2 | InFlight => 1 | Done _ => 0 end.

Definition remaining {R} (p : pool R) : nat :=
  sum_list_with slot_weight (slots p).

(** What holds in every state that the batch can reach. *)
Definition pool_inv {R} (tasks : list R) (p : pool R) : Prop :=
  in_flight p + sem_value p = semaphore_limit /\
  length (slots p) = length tasks /\
  (forall i r, slots p !! i = Some (Done r) -> tasks !! i = Some r).

End Pool.

(** ** Notions that the properties are stated with *)

(** A policy is an issue when its evaluation returns [False]. *)
Definition policy_fails (self : ConfigManager) (config_lines : list string)
    (entry : string * CompliancePolicy) : bool :=
  match _check_policy_compliance self config_lines entry.2 with
  | Returns false => true
  | _ => false
  end.

(** The float that the text [66.7] denotes. *)
Definition score_66_7 : pynum := PyFloat (PyFloat.of_tenths false 667).

Definition spec_float_eqb (f g : spec_float) : bool :=
  match f, g with
  | S754_zero s, S754_zero s' => Bool.eqb s s'
  | S754_infinity s, S754_infinity s' => Bool.eqb s s'
  | S754_nan, S754_nan => true
  | S754_finite s m e, S754_finite s' m' e' =>
      Bool.eqb s s' && Pos.eqb m m' && Z.eqb e e'
  | _, _ => false
  end.

(** The tenths that rounding keeps of a score that is not yet rounded. *)
Definition score_tenths (x : pynum) : option Z :=
  match x with
  | PyFloat (S754_finite false m e) => Some (PyFloat.tenths m e)
  | PyFloat (S754_zero false) => Some 0%Z
  | _ => None
  end.

(** The rounded score of [passed] out of [total] is the float of a
    decimal [k / 10] that lies within [1 / 20] of [100 * passed / total]. *)
Definition score_is_nearest_decimal (passed total : nat) : bool :=
  match compliance_score (Z.of_nat passed) (Z.of_nat total) with
  | Returns x =>
      match score_tenths x, py_round1 x with
      | Some k, PyFloat f =>
          spec_float_eqb f (PyFloat.of_tenths false k) &&
          (2 * Z.abs (k * Z.of_nat total - 1000 * Z.of_nat passed) <=? Z.of_nat total)%Z
      | _, _ => false
      end
  | Raises _ => false
  end.

(** [r.get('backup_id')] *)
Definition outcome_backup_id (r : RollbackOutcome) : option string :=
  match r with
  | Pushed _ _ _ b _ => b
  | Faulted _ _ _ => None
  end.


(** ** A small installation *)

Module Lab.

Definition core_sw1 : Device :=
  {| name := "core-sw1"; device_type := "cisco_ios"; ip_address := "10.0.0.1";
     username := "netops"; password := "secret"; port := None |}.

Definition edge_rt1 : Device :=
  {| name := "edge-rt1"; device_type := "cisco_ios"; ip_address := "10.0.0.2";
     username := "netops"; password := "secret"; port := Some 2222%Z |}.

Definition dist_sw2 : Device :=
  {| name := "dist-sw2"; device_type := "cisco_ios"; ip_address := "10.0.0.3";
     username := "netops"; password := "secret"; port := None |}.

Definition lab_sw9 : Device :=
  {| name := "lab-sw9"; device_type := "cisco_ios"; ip_address := "10.0.0.9";
     username := "netops"; password := "secret"; port := None |}.

Definition inventory : list (string * Device) :=
  [("1", core_sw1); ("2", edge_rt1); ("3", dist_sw2); ("9", lab_sw9)].

Definition devices : DeviceManager :=
  {| get_all_devices := map snd inventory;
     get_device_by_name := fun n => List.find (fun d => String.eqb (name d) n) (map snd inventory);
     get_device := fun i => snd <$> List.find (fun e => String.eqb (fst e) i) inventory |}.

(** The backup store is out of reach for [edge-rt1]. *)
Definition backups : BackupManager :=
  {| create_backup := fun d =>
       if String.eqb (name d) "edge-rt1" then Raises "backup store unreachable"
       else Returns {| bk_success := true;
                       bk_backup_id := Some ("bk-" +:+ name d);
                       bk_error := None |} |}.

Definition running_config : string :=
  "hostname core-sw1" +:+ PyStr.nl +:+
  "ip ssh version 2" +:+ PyStr.nl +:+
  "line vty 0 4" +:+ PyStr.nl +:+
  " transport input ssh" +:+ PyStr.nl.

Definition table : list Configuration :=
  [ {| id := "cfg-1"; device_id := "1"; deployment_id := Some "dep-7";
       configuration := "hostname core-sw1"; applied := true |};
    {| id := "cfg-2"; device_id := "2"; deployment_id := Some "dep-7";
       configuration := "hostname edge-rt1"; applied := true |};
    {| id := "cfg-3"; device_id := "3"; deployment_id := Some "dep-7";
       configuration := "hostname dist-sw2"; applied := true |};
    {| id := "cfg-4"; device_id := "9"; deployment_id := Some "dep-8";
       configuration := "hostname lab-sw9"; applied := false |};
    {| id := "cfg-5"; device_id := "77"; deployment_id := Some "dep-9";
       configuration := "hostname gone"; applied := true |} ].

(** [re.search] on the patterns that the installation uses: a pattern
    without metacharacters is searched as it is written, and the
    unbalanced ["("] is refused the way [re.compile] refuses it. *)
Definition literal_re_search (pat text : string) : pyresult bool :=
  if String.eqb pat "(" then Raises "missing ), unterminated subpattern at position 0"
  else Returns (PyStr.contains pat text).

(** The push to [lab-sw9] times out, and the log call fails for the
    worker of [dist-sw2]. *)
Definition manager : ConfigManager :=
  {| device_manager := devices;
     backup_manager := backups;
     template_dir := fun t => if String.eqb t "base.j2" then Returns (Some "hostname {{ hostname }}")
                              else Returns None;
     jinja_env := fun content _ => Returns content;
     db_table := table;
     db_lookup_fault := None;
     db_history_fault := None;
     compliance_policies_yaml := Raises "mapping values are not allowed here";
     send_show_running_config := fun _ => Returns running_config;
     _execute_deployment := fun params _ =>
       if String.eqb (cp_host params) "10.0.0.9" then Raises "timed out"
       else Returns {| push_success := Some true;
                       push_message := Some "Configuration applied" |};
     validate_configuration := fun _ _ =>
       Returns {| valid := Some true; errors := Some []; warnings := Some [] |};
     re_search := literal_re_search;
     utcnow_isoformat := "2024-05-01T12:00:00";
     logger_info_fault := fun d =>
       if String.eqb (name d) "dist-sw2" then Some "log handler failed" else None |}.

Definition cfg_1 : Configuration :=
  {| id := "cfg-1"; device_id := "1"; deployment_id := Some "dep-7";
     configuration := "hostname core-sw1"; applied := true |}.

(** Policies of each kind, one of a kind that is not known. *)
Definition policies : list (string * CompliancePolicy) :=
  [ ("ssh", {| pol_description := None; pol_check_type := None;
               pol_pattern := Some "ip ssh version 2"; pol_severity := None |});
    ("vty", {| pol_description := Some "VTY lines use SSH"; pol_check_type := Some "line_exists";
               pol_pattern := Some "transport input ssh"; pol_severity := Some "low" |});
    ("ntp", {| pol_description := Some "NTP configured"; pol_check_type := Some "contains";
               pol_pattern := Some "ntp server"; pol_severity := None |});
    ("future", {| pol_description := None; pol_check_type := Some "semantic";
                  pol_pattern := None; pol_severity := None |}) ].

(** A policy file with a pattern that is not a regular expression. *)
Definition unbalanced_policies : list (string * CompliancePolicy) :=
  [ ("mgmt_acl", {| pol_description := Some "Management ACL applied";
                    pol_check_type := Some "regex";
                    pol_pattern := Some "(";
                    pol_severity := Some "high" |}) ].

(** Twelve access switches, the targets of one batch. *)
Definition twelve : list Device :=
  map (fun n => {| name := "access-sw" +:+ n; device_type := "cisco_ios";
                   ip_address := "10.0.1." +:+ n;
                   username := "netops"; password := "secret"; port := None |})
      ["1"; "2"; "3"; "4"; "5"; "6"; "7"; "8"; "9"; "10"; "11"; "12"].

(** The batch of twelve once five workers have entered the semaphore. *)
Definition five_in_flight : Pool.pool (pyresult RollbackOutcome * list GatewayCall) :=
  {| Pool.sem_value := 0;
     Pool.slots := replicate 5 Pool.InFlight ++ replicate 7 Pool.Queued |}.

End Lab.

(** ** The gateway service

    The endpoints of [gateway_service.py] that drive the manager. A
    request body is what [request.get_json()] hands back, [None] when
    there is none; an endpoint answers with a body and a status. The
    handlers are those that [jwt_required] lets through: a request
    without a valid token does not reach them. *)
Module Gateway.

Record RollbackRequest : Type := mkRollbackRequest {
  rq_config_id : option string;
  rq_devices : option (list string)
}.

Record DeployRequest : Type := mkDeployRequest {
  dq_template : option string;
  dq_devices : option (list string);
  dq_variables : option (gmap string string);
  dq_dry_run : option bool
}.

(** The keys that an endpoint reads of the dict that an operation of
    the manager returns, each with [get]. *)
Record OperationResult (R : Type) : Type := mkOperationResult {
  op_success : option bool;
  op_error : option string;
  op_results : option (list R);
  op_deployment_id : option string
}.
Arguments mkOperationResult {R} _ _ _ _.
Arguments op_success {R} _.
Arguments op_error {R} _.
Arguments op_results {R} _.
Arguments op_deployment_id {R} _.

(** The dict of [validate_config], read that way. *)
Definition validate_result_dict {R} (r : ValidateResult) : OperationResult R :=
  match r with
  | ValidateError e =>
      {| op_success := Some false; op_error := Some e;
         op_results := None; op_deployment_id := None |}
  | ValidateReport ok _ _ _ =>
      {| op_success := Some ok; op_error := None;
         op_results := None; op_deployment_id := None |}
  end.

(** The dict of [rollback_config], read that way. *)
Definition rollback_result_dict (r : RollbackResult) : OperationResult RollbackOutcome :=
  match r with
  | RollbackError e =>
      {| op_success := Some false; op_error := Some e;
         op_results := None; op_deployment_id := None |}
  | RollbackBatch ok results _ =>
      {| op_success := Some ok; op_error := None;
         op_results := Some results; op_deployment_id := None |}
  end.

Inductive DeployBody (R : Type) : Type :=
| DeployError (error : string)
| DeployDone (message : string) (results : list R) (deployment_id : option string).
Arguments DeployError {R} error.
Arguments DeployDone {R} message results deployment_id.

Inductive RollbackBody : Type :=
| RollbackFailed (error : string)
| RollbackDone (message : string) (results : list RollbackOutcome).

Inductive DeviceBody : Type :=
| DeviceError (error : string)
| DeviceAdded (message : string) (device_id : option string).

(** What [device_mgr.add_device] answers. *)
Record AddDeviceResult : Type := mkAddDeviceResult {
  ad_success : option bool;
  ad_device_id : option string;
  ad_error : option string
}.

(** The loop over [required_fields]: the first field that the body
    does not have. *)
Fixpoint missing_field (required_fields : list string) (has_key : string -> bool) : option string :=
  match required_fields with
  | [] => None
  | field :: rest => if has_key field then missing_field rest has_key else Some field
  end.

Definition deploy_has_key (data : DeployRequest) (key : string) : bool :=
  if String.eqb key "template" then bool_decide (is_Some (dq_template data))
  else if String.eqb key "devices" then bool_decide (is_Some (dq_devices data))
  else if String.eqb key "variables" then bool_decide (is_Some (dq_variables data))
  else if String.eqb key "dry_run" then bool_decide (is_Some (dq_dry_run data))
  else false.

(** [ConfigDeploy.post]; [deploy_config] is the deployment of the
    manager. A body that is missing, and a fault of the deployment, end
    in the handler that answers 500. *)
Definition config_deploy_post {R} (self : ConfigManager)
    (deploy_config : string -> list string -> gmap string string -> pyresult (OperationResult R))
    (request_json : option DeployRequest) : DeployBody R * Z :=
  match request_json with
  | None => (DeployError "Failed to deploy configuration", 500%Z)
  | Some data =>
      match missing_field ["template"; "devices"] (deploy_has_key data) with
      | Some field => (DeployError ("Missing required field: " +:+ field), 400%Z)
      | None =>
          match dq_template data, dq_devices data with
          | Some template, Some devices =>
              let variables := default ∅ (dq_variables data) in
              let dry_run := default false (dq_dry_run data) in
              let outcome :=
                if dry_run then
                  Returns (validate_result_dict
                             (validate_config self template devices (Some variables)))
                else deploy_config template devices variables in
              match outcome with
              | Returns result =>
                  if default false (op_success result) then
                    (DeployDone (if negb dry_run then "Configuration deployed successfully"
                                 else "Configuration validation successful")
                                (default [] (op_results result))
                                (op_deployment_id result),
                     200%Z)
                  else (DeployError (default "Deployment failed" (op_error result)), 400%Z)
              | Raises _ => (DeployError "Failed to deploy configuration", 500%Z)
              end
          | _, _ => (DeployError "Failed to deploy configuration", 500%Z)
          end
      end
  end.

(** [ConfigRollback.post] *)
Definition config_rollback_post (self : ConfigManager)
    (request_json : option RollbackRequest) : RollbackBody * Z :=
  match request_json with
  | None => (RollbackFailed "Failed to rollback configuration", 500%Z)
  | Some data =>
      match rq_config_id data with
      | None => (RollbackFailed "Missing required field: config_id", 400%Z)
      | Some config_id =>
          let devices := rq_devices data in
          let result := rollback_result_dict (fst (rollback_config self config_id devices)) in
          if default false (op_success result) then
            (RollbackDone "Rollback completed successfully" (default [] (op_results result)), 200%Z)
          else (RollbackFailed (default "Rollback failed" (op_error result)), 400%Z)
      end
  end.

(** [DeviceList.post]; the body is a dict of which only the keys
    matter here. *)
Definition device_list_post {V} (add_device : gmap string V -> pyresult AddDeviceResult)
    (request_json : option (gmap string V)) : DeviceBody * Z :=
  match request_json with
  | None => (DeviceError "Failed to add device", 500%Z)
  | Some data =>
      match missing_field ["name"; "ip_address"; "device_type"; "credentials"]
                          (fun field => bool_decide (is_Some (data !! field))) with
      | Some field => (DeviceError ("Missing required field: " +:+ field), 400%Z)
      | None =>
          match add_device data with
          | Returns result =>
              if default false (ad_success result) then
                (DeviceAdded "Device added successfully" (ad_device_id result), 201%Z)
              else (DeviceError (default "Failed to add device" (ad_error result)), 400%Z)
          | Raises _ => (DeviceError "Failed to add device", 500%Z)
          end
      end
  end.

End Gateway.

(** ** The command line

    The [deploy] and [rollback] commands of [manage.py]: what they
    print on the console, in order, and the status they exit with
    ([None] when the command returns). The spinner of the progress
    display is not part of the output. *)
Module Cli.

(** What is handed to [console.print]: a text with its style, or a
    table with its title, its columns and its rows, each with a style. *)
Inductive Renderable : Type :=
| Text (text : string) (style : option string)
| Table (title : string) (columns : list (string * option string))
        (rows : list (list string * string)).

(** The per-device dict of a deployment, as the table reads it. *)
Record DeviceResult : Type := mkDeviceResult {
  dv_device : string;
  dv_success : bool;
  dv_message : option string
}.

Definition comma : ascii := ","%char.

(** [devices.split(',') if devices != 'all' else ['all']] *)
Definition device_list (devices : string) : list string :=
  if negb (String.eqb devices "all") then PyStr.split comma devices else ["all"].

(** [devices.split(',') if devices else None] *)
Definition rollback_device_list (devices : option string) : option (list string) :=
  match devices with
  | None => None
  | Some d => if String.eqb d "" then None else Some (PyStr.split comma d)
  end.

Definition results_columns : list (string * option string) :=
  [("Device", Some "cyan"); ("Status", Some "green"); ("Message", None)].

Definition status_cell (success : bool) : string :=
  if success then "✅ Success" else "❌ Failed".

Definition status_style (success : bool) : string :=
  if success then "green" else "red".

Definition deploy_row (r : DeviceResult) : list string * string :=
  ([dv_device r; status_cell (dv_success r); default "" (dv_message r)],
   status_style (dv_success r)).

(** [rollback_result.get('message', '')] *)
Definition outcome_message (r : RollbackOutcome) : string :=
  match r with
  | Pushed _ _ m _ _ => m
  | Faulted _ _ _ => ""
  end.

Definition rollback_row (r : RollbackOutcome) : list string * string :=
  ([outcome_device r; status_cell (outcome_success r); outcome_message r],
   status_style (outcome_success r)).

(** [str(result.get('error'))] inside an f-string. *)
Definition error_text (error : option string) : string := default "None" error.

(** [result.get('preview', 'No preview available')] *)
Definition preview_text (r : ValidateResult) : string :=
  match r with
  | ValidateReport _ preview _ _ => preview
  | ValidateError _ => "No preview available"
  end.

(** The [deploy] command; [json_loads] raises on text that is not
    JSON, and [deploy_config] is the deployment of the manager. *)
Definition deploy (self : ConfigManager)
    (json_loads : string -> pyresult (gmap string string))
    (deploy_config : string -> list string -> gmap string string
                     -> pyresult (Gateway.OperationResult DeviceResult))
    (template devices : string) (variables : option string) (dry_run : bool)
    : list Renderable * option Z :=
  let banner := Text ("🚀 Deploying configuration template: " +:+ template) (Some "bold green") in
  let device_list := device_list devices in
  let parsed :=
    match variables with
    | None => Returns ∅
    | Some text => if String.eqb text "" then Returns ∅ else json_loads text
    end in
  match parsed with
  | Raises _ =>
      ([banner; Text "❌ Invalid JSON format for variables" (Some "bold red")], Some 1%Z)
  | Returns vars_dict =>
      if dry_run then
        let result := validate_config self template device_list (Some vars_dict) in
        ([banner;
          Text "✅ Configuration validation successful!" (Some "bold green");
          Text "📋 Preview:" (Some "bold cyan");
          Text (preview_text result) None],
         None)
      else
        match deploy_config template device_list vars_dict with
        | Raises e =>
            ([banner; Text ("❌ Deployment error: " +:+ e) (Some "bold red")], Some 1%Z)
        | Returns result =>
            if default false (Gateway.op_success result) then
              ([banner;
                Text "✅ Configuration deployed successfully!" (Some "bold green");
                Table "Deployment Results" results_columns
                      (map deploy_row (default [] (Gateway.op_results result)))],
               None)
            else
              ([banner;
                Text ("❌ Deployment failed: " +:+ error_text (Gateway.op_error result))
                     (Some "bold red")],
               Some 1%Z)
        end
  end.

(** The [rollback] command; [confirmed] is the answer to the prompt,
    asked only without [--confirm]. Beside the output and the status,
    the device calls that the rollback made. *)
Definition rollback (self : ConfigManager) (confirmed : bool)
    (config_id : string) (devices : option string) (confirm : bool)
    : list Renderable * option Z * list (list GatewayCall) :=
  if negb confirm && negb confirmed then
    ([Text "🚫 Rollback cancelled" (Some "bold yellow")], None, [])
  else
    let banner := Text ("⏪ Rolling back to configuration: " +:+ config_id) (Some "bold yellow") in
    let device_list := rollback_device_list devices in
    let run := rollback_config self config_id device_list in
    let result := Gateway.rollback_result_dict (fst run) in
    if default false (Gateway.op_success result) then
      ([banner;
        Text "✅ Rollback completed successfully!" (Some "bold green");
        Table "Rollback Results" results_columns
              (map rollback_row (default [] (Gateway.op_results result)))],
       None, snd run)
    else
      ([banner;
        Text ("❌ Rollback failed: " +:+ error_text (Gateway.op_error result)) (Some "bold red")],
       Some 1%Z, snd run).

End Cli.

(** ** The installation, seen from the service and the command line *)

Module Site.

(** The installation while the store refuses to list the rows of a
    deployment. *)
Definition locked_store : ConfigManager :=
  {| device_manager := device_manager Lab.manager;
     backup_manager := backup_manager Lab.manager;
     template_dir := template_dir Lab.manager;
     jinja_env := jinja_env Lab.manager;
     db_table := db_table Lab.manager;
     db_lookup_fault := None;
     db_history_fault := Some "database is locked";
     compliance_policies_yaml := compliance_policies_yaml Lab.manager;
     send_show_running_config := send_show_running_config Lab.manager;
     _execute_deployment := _execute_deployment Lab.manager;
     validate_configuration := validate_configuration Lab.manager;
     re_search := re_search Lab.manager;
     utcnow_isoformat := utcnow_isoformat Lab.manager;
     logger_info_fault := logger_info_fault Lab.manager |}.

Definition rollback_request : Gateway.RollbackRequest :=
  {| Gateway.rq_config_id := Some "cfg-1"; Gateway.rq_devices := None |}.

Definition dry_run_request : Gateway.DeployRequest :=
  {| Gateway.dq_template := Some "base.j2";
     Gateway.dq_devices := Some ["core-sw1"];
     Gateway.dq_variables := None;
     Gateway.dq_dry_run := Some true |}.

(** [json.loads] on the texts that the installation is given. *)
Definition json_loads (text : string) : pyresult (gmap string string) :=
  if String.eqb text "{}" then Returns ∅
  else Raises "Expecting value: line 1 column 1 (char 0)".

(** A deployment that cannot reach any device. *)
Definition deploy_config {R} (template : string) (devices : list string)
    (variables : gmap string string) : pyresult (Gateway.OperationResult R) :=
  Raises "network is unreachable".

Definition vty_line_policy : CompliancePolicy :=
  {| pol_description := Some "VTY lines use SSH"; pol_check_type := Some "line_exists";
     pol_pattern := Some "transport input ssh"; pol_severity := Some "low" |}.

Definition vty_text_policy : CompliancePolicy :=
  {| pol_description := Some "VTY lines use SSH"; pol_check_type := Some "contains";
     pol_pattern := Some "transport input ssh"; pol_severity := Some "low" |}.

Definition no_pattern_policy : CompliancePolicy :=
  {| pol_description := None; pol_check_type := Some "not_contains";
     pol_pattern := None; pol_severity := None |}.

End Site.

(** ** Facts about the string operations *)

Module PyStrFacts.
Import PyStr.

Lemma append_cons a p r : String a p +:+ r = String a (p +:+ r).
Proof. reflexivity. Qed.

Lemma append_nil_l r : "" +:+ r = r.
Proof. reflexivity. Qed.

Lemma split_nonempty sep s : split sep s <> [].
Proof.
  destruct s as [|c r]; simpl; [discriminate|].
  destruct (Ascii.eqb c sep); [discriminate|].
  destruct (split sep r); discriminate.
Qed.

Lemma join_cons_cons sep x y l :
  join sep (x :: y :: l) = x +:+ sep +:+ join sep (y :: l).
Proof. reflexivity. Qed.

(** Joining what was split gives the text back. *)
Lemma join_split sep s : join (String sep "") (split sep s) = s.
Proof.
  induction s as [|c r IH]; [reflexivity|].
  cbn [split].
  destruct (Ascii.eqb c sep) eqn:E.
  - apply Ascii.eqb_eq in E; subst c.
    pose proof (split_nonempty sep r) as Hne.
    destruct (split sep r) as [|h t]; [congruence|].
    rewrite join_cons_cons, IH. reflexivity.
  - pose proof (split_nonempty sep r) as Hne.
    destruct (split sep r) as [|h t]; [congruence|].
    destruct t as [|h' t'].
    + simpl in *. congruence.
    + rewrite join_cons_cons in *. rewrite <- IH. reflexivity.
Qed.

Lemma prefix_spec pat s : String.prefix pat s = true <-> exists r, s = pat +:+ r.
Proof.
  revert s; induction pat as [|a p IH]; intros s.
  - split; [intros _; exists s; reflexivity | intros _; destruct s; reflexivity].
  - destruct s as [|b s']; simpl.
    + split; [discriminate | intros [r Hr]; discriminate].
    + destruct (ascii_dec a b) as [->|Hab].
      * rewrite IH. split; intros [r Hr]; exists r;
          rewrite append_cons in *; congruence.
      * split; [discriminate | intros [r Hr]; rewrite append_cons in Hr; congruence].
Qed.

Lemma contains_spec pat text : contains pat text = true <-> substring_of pat text.
Proof.
  unfold substring_of.
  induction text as [|c r IH].
  - cbn [contains]. rewrite prefix_spec. split.
    + intros [q Hq]. exists "", q. exact Hq.
    + intros [pre [post H]]. destruct pre; [|discriminate].
      exists post. exact H.
  - cbn [contains]. rewrite orb_true_iff, prefix_spec, IH. split.
    + intros [[q Hq] | [pre [post H]]].
      * exists "", q. exact Hq.
      * exists (String c pre), post. rewrite append_cons. congruence.
    + intros [pre [post H]]. destruct pre as [|c' pre'].
      * left. exists post. exact H.
      * right. rewrite append_cons in H. injection H as _ H.
        exists pre', post. exact H.
Qed.

Lemma contains_false pat text : contains pat text = false <-> ~ substring_of pat text.
Proof.
  rewrite <- contains_spec. destruct (contains pat text); split; congruence.
Qed.

End PyStrFacts.

(** ** Policy evaluation *)

Section PolicyEvaluation.
Variable self : ConfigManager.


(** The text that the evaluator searches is the fetched text. *)
Lemma config_text_roundtrip text :
  PyStr.join PyStr.nl (PyStr.split PyStr.newline text) = text.
Proof. apply PyStrFacts.join_split. Qed.


End PolicyEvaluation.

(** ** The score as a decimal *)

Lemma spec_float_eqb_eq f g : spec_float_eqb f g = true -> f = g.
Proof.
  destruct f, g; simpl; try discriminate; try reflexivity.
  - intros H. apply Bool.eqb_prop in H. by subst.
  - intros H. apply Bool.eqb_prop in H. by subst.
  - rewrite !andb_true_iff. intros [[Hs Hm] He].
    apply Bool.eqb_prop in Hs. apply Pos.eqb_eq in Hm. apply Z.eqb_eq in He.
    by subst.
Qed.

Lemma score_nearest_decimal_upto_100 :
  forallb (fun total => forallb (fun passed => score_is_nearest_decimal passed total)
                                (seq 0 (S total)))
          (seq 1 100) = true.
Proof. vm_compute. reflexivity. Qed.

Lemma score_nearest_decimal (passed total : nat) :
  1 <= total <= 100 -> passed <= total ->
  exists x k,
    compliance_score (Z.of_nat passed) (Z.of_nat total) = Returns x /\
    py_round1 x = PyFloat (PyFloat.of_tenths false k) /\
    (2 * Z.abs (k * Z.of_nat total - 1000 * Z.of_nat passed) <= Z.of_nat total)%Z.
Proof.
  intros Ht Hp.
  pose proof score_nearest_decimal_upto_100 as H.
  rewrite forallb_forall in H.
  specialize (H total). rewrite in_seq in H.
  assert (Hin : 1 <= total < 1 + 100) by lia. specialize (H Hin).
  rewrite forallb_forall in H.
  specialize (H passed). rewrite in_seq in H.
  assert (Hin' : 0 <= passed < 0 + S total) by lia. specialize (H Hin').
  unfold score_is_nearest_decimal in H.
  destruct (compliance_score (Z.of_nat passed) (Z.of_nat total)) as [x|]; [|discriminate].
  destruct (score_tenths x) as [k|]; [|discriminate].
  destruct (py_round1 x) as [|f] eqn:Hround; [discriminate|].
  apply andb_true_iff in H as [Heq Hle].
  apply spec_float_eqb_eq in Heq. apply Z.leb_le in Hle.
  exists x, k. subst f. split; [reflexivity|]. split; [exact Hround|exact Hle].
Qed.

(** ** Compliance of one device *)

Section DeviceCompliance.
Variable self : ConfigManager.

Lemma compliance_issues_returns (config_lines : list string)
    (policies : list (string * CompliancePolicy)) :
  (forall entry, entry ∈ policies ->
     exists b, _check_policy_compliance self config_lines entry.2 = Returns b) ->
  exists issues,
    compliance_issues self config_lines policies = Returns issues /\
    map issue_policy issues = map fst (List.filter (policy_fails self config_lines) policies).
Proof.
  induction policies as [|[policy_name policy] rest IH]; intros Hall.
  - exists []. split; reflexivity.
  - destruct (Hall (policy_name, policy)) as [b Hb]; [left|].
    destruct IH as [issues [Hissues Hnames]].
    { intros entry Hin. apply Hall. by right. }
    cbn [compliance_issues List.filter]. unfold policy_fails at 1.
    simpl in Hb. cbn [snd]. rewrite Hb, Hissues. simpl.
    destruct b; eexists; (split; [reflexivity|]); simpl; by rewrite ?Hnames.
Qed.

Lemma truediv_returns (a b : Z) :
  b <> 0%Z -> exists q, PyFloat.truediv a b = Returns q.
Proof.
  intros Hb. destruct a, b; try congruence; simpl; eauto.
Qed.

Lemma filter_length_le {A} (f : A -> bool) (l : list A) :
  length (List.filter f l) <= length l.
Proof.
  induction l as [|x l IH]; simpl; [lia|]. destruct (f x); simpl; lia.
Qed.

(** C3, as the code has it. When the configuration of a device is
    fetched and every policy of a non-empty mapping evaluates without
    raising, the report has as score the float
    [passed / total * 100] rounded to one decimal, is compliant exactly
    when no policy failed, and counts and lists the failed policies in
    order; up to a hundred policies that score is the float of a decimal
    [k / 10] within [1 / 20] of the exact [100 * passed / total]. With
    the built-in policies, a text that has
    "ip ssh version 2" and has neither "transport input telnet" nor
    "banner login" scores 66.7, is not compliant and has one issue. *)
Theorem device_compliance_score (device : Device) (text : string)
    (Hfetch : send_show_running_config self (_get_connection_params device) = Returns text) :
  (forall policies : list (string * CompliancePolicy),
     policies <> [] ->
     (forall entry, entry ∈ policies ->
        exists b, _check_policy_compliance self (PyStr.split PyStr.newline text) entry.2 = Returns b) ->
     let failing := List.filter (policy_fails self (PyStr.split PyStr.newline text)) policies in
     let total := Z.of_nat (length policies) in
     let passed := (total - Z.of_nat (length failing))%Z in
     exists q issues,
       PyFloat.truediv passed total = Returns q /\
       _check_device_compliance self device policies =
         ComplianceReport (name device)
           (Nat.eqb (length failing) 0)
           (py_round1 (PyFloat (PyFloat.mul_int q 100)))
           (length failing)
           issues
           (utcnow_isoformat self) /\
       map issue_policy issues = map fst failing /\
       (length policies <= 100 ->
          exists k,
            py_round1 (PyFloat (PyFloat.mul_int q 100)) = PyFloat (PyFloat.of_tenths false k) /\
            (2 * Z.abs (k * total - 1000 * passed) <= total)%Z)) /\
  (PyStr.substring_of "ip ssh version 2" text ->
   ~ PyStr.substring_of "transport input telnet" text ->
   ~ PyStr.substring_of "banner login" text ->
   exists issues,
     _check_device_compliance self device default_policies =
       ComplianceReport (name device) false score_66_7 1 issues (utcnow_isoformat self)).
Proof.
  split.
  - intros policies Hne Hall failing total passed.
    destruct (compliance_issues_returns _ _ Hall) as [issues [Hissues Hnames]].
    assert (Hlen : length issues = length failing).
    { unfold failing. rewrite <- (length_map issue_policy), Hnames. apply length_map. }
    destruct (truediv_returns passed total) as [q Hq].
    { unfold total. destruct policies; [congruence|]. simpl length. lia. }
    assert (Htotal : (0 <? total)%Z = true).
    { apply Z.ltb_lt. unfold total. destruct policies; [congruence|]. simpl length. lia. }
    exists q, issues. split; [exact Hq|]. split; [|split; [exact Hnames|]].
    2:{ intros Hsmall.
        pose proof (filter_length_le (policy_fails self (PyStr.split PyStr.newline text)) policies) as Hle.
        fold failing in Hle.
        destruct (score_nearest_decimal (length policies - length failing) (length policies))
          as [x [k [Hx [Hround Hnear]]]]; [|lia|].
        { split; [|exact Hsmall]. destruct policies; [congruence|]. simpl length. lia. }
        replace (Z.of_nat (length policies - length failing)) with passed in Hx, Hnear
          by (unfold passed, total; lia).
        fold total in Hx, Hnear.
        unfold compliance_score in Hx. rewrite Htotal, Hq in Hx.
        injection Hx as <-. exists k. split; [exact Hround|exact Hnear]. }
    unfold _check_device_compliance, _get_device_configuration.
    rewrite Hfetch. cbn zeta. rewrite Hissues. cbn [mbind pyresult_bind].
    rewrite Hlen. fold total. fold passed.
    unfold compliance_score.
    rewrite Htotal, Hq. reflexivity.
  - intros Hssh Htelnet Hbanner.
    apply PyStrFacts.contains_spec in Hssh.
    apply PyStrFacts.contains_false in Htelnet, Hbanner.
    unfold _check_device_compliance, _get_device_configuration.
    rewrite Hfetch. cbn zeta.
    unfold default_policies, compliance_issues, _check_policy_compliance.
    cbn [pol_check_type pol_pattern pol_description pol_severity default].
    rewrite !config_text_roundtrip.
    unfold Datatypes.id. simpl (String.eqb _ _).
    rewrite Hssh, Htelnet, Hbanner.
    eexists. vm_compute. reflexivity.
Qed.

(** C10. With an empty policy mapping, which is what loading yields
    when the policy file cannot be read, a device whose configuration
    is fetched is reported compliant, with no issue and the [int]
    score 0. *)
Theorem empty_policies_report (device : Device) (text : string)
    (Hfetch : send_show_running_config self (_get_connection_params device) = Returns text) :
  _check_device_compliance self device [] =
    ComplianceReport (name device) true (PyInt 0) 0 [] (utcnow_isoformat self) /\
  (forall e, compliance_policies_yaml self = Raises e ->
     _load_compliance_policies self = [] /\
     _check_device_compliance self device (_load_compliance_policies self) =
       ComplianceReport (name device) true (PyInt 0) 0 [] (utcnow_isoformat self)).
Proof.
  assert (H : _check_device_compliance self device [] =
    ComplianceReport (name device) true (PyInt 0) 0 [] (utcnow_isoformat self)).
  { unfold _check_device_compliance, _get_device_configuration.
    rewrite Hfetch. reflexivity. }
  split; [exact H|].
  intros e He. unfold _load_compliance_policies. rewrite He. split; [reflexivity|exact H].
Qed.

End DeviceCompliance.

(** ** Dry-run variables *)

Section SampleVariables.

Lemma sample_variables_unfold (variables : option (gmap string string)) :
  sample_variables variables =
    <["device_type" := "cisco_ios"]>
      (<["management_ip" := "192.168.1.1"]>
         (<["hostname" := "sample-device"]> (default ∅ variables))).
Proof. reflexivity. Qed.

(** C5, as the code has it. The variables that the dry run renders with
    are the caller's, updated with the three placeholders: [hostname],
    [management_ip] and [device_type] always hold the placeholder, every
    other name holds what the caller gave it, no name of the caller is
    missing, and the preview is the rendering against that mapping. *)
Theorem sample_variables_merge (variables : option (gmap string string)) :
  let merged := sample_variables variables in
  merged !! "hostname" = Some "sample-device" /\
  merged !! "management_ip" = Some "192.168.1.1" /\
  merged !! "device_type" = Some "cisco_ios" /\
  (forall k, k <> "hostname" -> k <> "management_ip" -> k <> "device_type" ->
     merged !! k = default ∅ variables !! k) /\
  (forall k, is_Some (default ∅ variables !! k) -> is_Some (merged !! k)) /\
  (forall self template devices ok preview errs warns,
     validate_config self template devices variables = ValidateReport ok preview errs warns ->
     exists content,
       _load_template self template = Some content /\
       _render_template self content merged = Returns preview).
Proof.
  intros merged. unfold merged. rewrite sample_variables_unfold.
  repeat split.
  - by simplify_map_eq.
  - by simplify_map_eq.
  - by simplify_map_eq.
  - intros k H1 H2 H3. by simplify_map_eq.
  - intros k Hk.
    destruct (decide (k = "device_type")) as [->|]; [by simplify_map_eq|].
    destruct (decide (k = "management_ip")) as [->|]; [by simplify_map_eq|].
    destruct (decide (k = "hostname")) as [->|]; [by simplify_map_eq|].
    by simplify_map_eq.
  - intros self template devices ok preview errs warns.
    unfold validate_config.
    destruct (_load_template self template) as [content|]; [|discriminate].
    destruct (content =? "")%string; [discriminate|].
    rewrite sample_variables_unfold.
    destruct (_render_template self content _) as [rendered|e] eqn:Hr; simpl; [|discriminate].
    destruct (validate_configuration self rendered "cisco_ios"); simpl; [|discriminate].
    intros [= <- <- <- <-]. exists content. split; [reflexivity|exact Hr].
Qed.

(** The claim of C5 as the specification words it: whatever the caller
    supplies is what the rendering sees. It fails for [hostname]. *)
Lemma caller_hostname_overwritten :
  sample_variables (Some {["hostname" := "core-sw1"]}) !! "hostname" = Some "sample-device" /\
  ~ (forall (variables : gmap string string) k v,
       variables !! k = Some v -> sample_variables (Some variables) !! k = Some v).
Proof.
  split.
  - rewrite sample_variables_unfold. by simplify_map_eq.
  - intros H.
    assert (Hl : ({["hostname" := "core-sw1"]} : gmap string string) !! "hostname"
                 = Some "core-sw1") by apply lookup_singleton_eq.
    specialize (H _ _ _ Hl).
    rewrite sample_variables_unfold in H.
    rewrite lookup_insert_ne, lookup_insert_ne, lookup_insert_eq in H by done.
    discriminate H.
Qed.

End SampleVariables.

(** ** Facts about the semaphore pool *)

Module PoolFacts.
Import Pool.

Section WithTasks.
Context {R : Type}.
Variable tasks : list R.

Lemma in_flight_insert (l : list (slot R)) i (x y : slot R) :
  l !! i = Some x ->
  length (List.filter is_in_flight (<[i := y]> l)) + (if is_in_flight x then 1 else 0) =
  length (List.filter is_in_flight l) + (if is_in_flight y then 1 else 0).
Proof.
  revert i. induction l as [|z l IH]; intros [|i] Hi; simplify_eq/=.
  - destruct (is_in_flight x), (is_in_flight y); simpl; lia.
  - specialize (IH i Hi). destruct (is_in_flight z); simpl; lia.
Qed.

Lemma remaining_insert (l : list (slot R)) i (x y : slot R) :
  l !! i = Some x ->
  sum_list_with slot_weight (<[i := y]> l) + slot_weight x =
  sum_list_with slot_weight l + slot_weight y.
Proof.
  revert i. induction l as [|z l IH]; intros [|i] Hi; simplify_eq/=.
  - lia.
  - specialize (IH i Hi). lia.
Qed.

Lemma in_flight_queued (l : list R) :
  length (List.filter is_in_flight (map (fun _ => @Queued R) l)) = 0.
Proof. induction l; simpl; auto. Qed.

Lemma in_flight_pos_lookup (l : list (slot R)) :
  0 < length (List.filter is_in_flight l) -> exists i, l !! i = Some InFlight.
Proof.
  induction l as [|z l IH]; simpl; [lia|].
  destruct z; simpl; intros H.
  - destruct (IH H) as [i Hi]. by exists (S i).
  - by exists 0.
  - destruct (IH H) as [i Hi]. by exists (S i).
Qed.

Lemma submit_inv : pool_inv tasks (submit tasks).
Proof.
  unfold pool_inv, submit, in_flight; simpl. split; [|split].
  - by rewrite in_flight_queued.
  - by rewrite length_map.
  - intros i r Hi. rewrite list_lookup_fmap in Hi.
    destruct (tasks !! i); simplify_eq/=.
Qed.

Lemma step_inv p q : pool_inv tasks p -> step tasks p q -> pool_inv tasks q.
Proof.
  intros (Hsem & Hlen & Hdone) Hstep. unfold pool_inv, in_flight in *.
  destruct Hstep as [p i Hq Hpos | p i r Hfl Hr]; simpl.
  - pose proof (in_flight_insert _ _ _ InFlight Hq) as Hc. simpl in Hc.
    split; [lia|]. split; [by rewrite length_insert|].
    intros j r Hj. destruct (decide (i = j)) as [->|Hne].
    + rewrite list_lookup_insert_eq in Hj by (by eapply lookup_lt_Some).
      discriminate.
    + rewrite list_lookup_insert_ne in Hj by done. by apply Hdone.
  - pose proof (in_flight_insert _ _ _ (Done r) Hfl) as Hc. simpl in Hc.
    split; [lia|]. split; [by rewrite length_insert|].
    intros j r' Hj. destruct (decide (i = j)) as [->|Hne].
    + rewrite list_lookup_insert_eq in Hj by (by eapply lookup_lt_Some).
      by simplify_eq.
    + rewrite list_lookup_insert_ne in Hj by done. by apply Hdone.
Qed.

Lemma reachable_inv p : rtc (step tasks) (submit tasks) p -> pool_inv tasks p.
Proof.
  intros Hrtc.
  eapply (rtc_ind_r (pool_inv tasks) (submit tasks)); [apply submit_inv| |exact Hrtc].
  intros y z _ Hstep Hy. by eapply step_inv.
Qed.

(** Every step brings the batch closer to its end. *)
Lemma step_remaining p q : step tasks p q -> remaining q < remaining p.
Proof.
  unfold remaining. intros [p' i Hq Hpos | p' i r Hfl Hr]; simpl.
  - pose proof (remaining_insert _ _ _ InFlight Hq) as Hc. simpl in Hc. lia.
  - pose proof (remaining_insert _ _ _ (Done r) Hfl) as Hc. simpl in Hc. lia.
Qed.

Lemma step_sn p : sn (step tasks) p.
Proof.
  remember (remaining p) as n eqn:Hn.
  revert p Hn. induction n as [n IH] using lt_wf_ind. intros p ->.
  constructor. intros q Hq. unfold flip in Hq.
  eapply IH; [|reflexivity]. by apply step_remaining.
Qed.

(** A state that cannot move has every task done, each at its place. *)
Lemma nf_all_done p :
  pool_inv tasks p -> nf (step tasks) p -> slots p = map Done tasks.
Proof.
  intros (Hsem & Hlen & Hdone) Hnf.
  assert (Hnofl : forall i, slots p !! i <> Some InFlight).
  { intros i Hi. apply Hnf.
    destruct (lookup_lt_is_Some_2 tasks i) as [r Hr].
    { rewrite <- Hlen. by eapply lookup_lt_Some. }
    eexists. by eapply step_release. }
  assert (Hzero : in_flight p = 0).
  { destruct (in_flight p) eqn:E; [done|].
    destruct (in_flight_pos_lookup (slots p)) as [i Hi].
    { unfold in_flight in E. lia. }
    by destruct (Hnofl i). }
  apply list_eq. intros i. rewrite list_lookup_fmap.
  destruct (slots p !! i) as [[| |r]|] eqn:Hi.
  - exfalso. apply Hnf. eexists. eapply step_acquire; [exact Hi|].
    unfold semaphore_limit in Hsem. lia.
  - by destruct (Hnofl i).
  - by rewrite (Hdone _ _ Hi).
  - apply lookup_ge_None in Hi. rewrite Hlen in Hi.
    apply lookup_ge_None in Hi. by rewrite Hi.
Qed.

Lemma gathered_all_done (l : list R) :
  mapM (fun s : slot R => match s with Done r => Some r | _ => None end) (map Done l) = Some l.
Proof.
  induction l as [|x l IH]; [reflexivity|].
  simpl. rewrite IH. reflexivity.
Qed.

(** Whatever the order in which the tasks ran, [gather] hands back what
    each yielded, in the order of the tasks. *)
Lemma gathered_in_task_order p :
  rtc (step tasks) (submit tasks) p -> nf (step tasks) p -> gathered p = Some tasks.
Proof.
  intros Hrtc Hnf. unfold gathered.
  rewrite (nf_all_done p (reachable_inv p Hrtc) Hnf).
  apply gathered_all_done.
Qed.

End WithTasks.
End PoolFacts.

(** ** Rollback *)

Section Rollback.
Variable self : ConfigManager.

Lemma process_results_aligned (targets : list Device)
    (rs : list (pyresult RollbackOutcome)) (i : nat) :
  i + length rs <= length targets ->
  exists results,
    process_results self targets i rs = Returns results /\
    length results = length rs /\
    forall j,
      match rs !! j with
      | Some (Returns r) => results !! j = Some r
      | Some (Raises e) =>
          exists d, targets !! (i + j) = Some d /\
                    results !! j = Some (Faulted (name d) e (utcnow_isoformat self))
      | None => True
      end.
Proof.
  revert i. induction rs as [|result rest IH]; intros i Hlen.
  - exists []. repeat split.
  - simpl in Hlen.
    destruct (IH (S i)) as [results [Hres [Hl Hj]]]; [lia|].
    cbn [process_results]. destruct result as [r|e].
    + cbn [mbind pyresult_bind]. rewrite Hres. cbn [mbind pyresult_bind].
      exists (r :: results). split; [reflexivity|]. split; [simpl; lia|].
      intros [|j]; [reflexivity|]. simpl.
      specialize (Hj j). by replace (i + S j) with (S i + j) by lia.
    + destruct (lookup_lt_is_Some_2 targets i) as [d Hd]; [lia|].
      rewrite Hd. cbn [mbind pyresult_bind]. rewrite Hres. cbn [mbind pyresult_bind].
      eexists. split; [reflexivity|]. split; [simpl; lia|].
      intros [|j]; simpl.
      * exists d. by rewrite Nat.add_0_r.
      * specialize (Hj j). by replace (i + S j) with (S i + j) by lia.
Qed.

(** A batch whose configuration is found and that has a target always
    comes back as the batch dict, with one outcome per target, each at
    the index of its device. *)
Lemma rollback_config_batch (config_id : string) (devices : option (list string))
    (config : Configuration) :
  query_configuration self config_id = Returns (Some config) ->
  rollback_targets self config devices <> [] ->
  let target_devices := rollback_targets self config devices in
  let tasks := rollback_tasks self config target_devices in
  exists results,
    rollback_config self config_id devices = (batch_result results, map snd tasks) /\
    length results = length target_devices /\
    forall i device, target_devices !! i = Some device ->
      exists outcome, results !! i = Some outcome /\
        match fst (_rollback_device_config self device config) with
        | Returns r => outcome = r
        | Raises e => outcome = Faulted (name device) e (utcnow_isoformat self)
        end.
Proof.
  intros Hq Hne. cbv zeta.
  remember (rollback_targets self config devices) as target_devices eqn:Ht.
  set (tasks := rollback_tasks self config target_devices).
  destruct (process_results_aligned target_devices (map fst tasks) 0)
    as [results [Hres [Hl Hj]]].
  { unfold tasks, rollback_tasks. rewrite !length_map. lia. }
  exists results. split; [|split].
  - unfold rollback_config. rewrite Hq, <- Ht.
    destruct target_devices as [|d ds]; [congruence|].
    fold tasks. by rewrite Hres.
  - rewrite Hl. unfold tasks, rollback_tasks. by rewrite !length_map.
  - intros i device Hi. specialize (Hj i).
    unfold tasks, rollback_tasks in Hj.
    rewrite !list_lookup_fmap, Hi in Hj. simpl in Hj.
    destruct (_rollback_device_config self device config).1 as [r|e].
    + by exists r.
    + destruct Hj as [d [Hd Hr]]. simpl in Hd. rewrite Hi in Hd.
      injection Hd as <-. by eexists.
Qed.

Lemma worker_outcome_device (device : Device) (config : Configuration) (r : RollbackOutcome) :
  fst (_rollback_device_config self device config) = Returns r ->
  outcome_device r = name device.
Proof.
  unfold _rollback_device_config.
  destruct (logger_info_fault self device); [discriminate|].
  destruct (_execute_deployment self _ _); simpl; by intros [= <-].
Qed.

Lemma successful_rollbacks_count (results : list RollbackOutcome) :
  successful_rollbacks results = Z.of_nat (length (List.filter outcome_success results)).
Proof.
  unfold successful_rollbacks.
  induction (List.filter outcome_success results) as [|r l IH]; [reflexivity|].
  cbn [map foldr length]. rewrite IH. lia.
Qed.

Lemma filter_split_length {A} (f : A -> bool) (l : list A) :
  length (List.filter f l) + length (List.filter (fun x => negb (f x)) l) = length l.
Proof.
  induction l as [|x l IH]; [reflexivity|].
  simpl. destruct (f x); simpl; lia.
Qed.

Lemma filter_nonempty_iff {A} (f : A -> bool) (l : list A) :
  0 < length (List.filter f l) <-> exists x, x ∈ l /\ f x = true.
Proof.
  split.
  - destruct (List.filter f l) as [|x l'] eqn:E; simpl; [lia|]. intros _.
    assert (Hin : In x (List.filter f l)) by (rewrite E; by left).
    apply filter_In in Hin as [Hin Hf]. exists x. split; [by apply list_elem_of_In|done].
  - intros [x [Hin Hf]].
    assert (Hin' : In x (List.filter f l)).
    { apply filter_In. split; [by apply list_elem_of_In|done]. }
    destruct (List.filter f l); [destruct Hin'|simpl; lia].
Qed.

End Rollback.

Section RollbackProperties.
Variable self : ConfigManager.

(** C1. A batch whose configuration is found and that has a target
    returns the batch dict with one outcome per target device, the
    outcome at an index being that of the device at that index: what
    its worker returned, or, when the worker raised, the failure dict
    with the text of the fault and the name of that device. The workers
    may finish in any order: once all are done, [gather] holds what
    each yielded in the order of the targets. *)
Theorem rollback_results_aligned (config_id : string) (devices : option (list string))
    (config : Configuration)
    (Hfound : query_configuration self config_id = Returns (Some config))
    (Htargets : rollback_targets self config devices <> []) :
  let target_devices := rollback_targets self config devices in
  let tasks := rollback_tasks self config target_devices in
  exists ok results summary,
    rollback_config self config_id devices = (RollbackBatch ok results summary, map snd tasks) /\
    length results = length target_devices /\
    (forall i device, target_devices !! i = Some device ->
       exists outcome,
         results !! i = Some outcome /\
         outcome_device outcome = name device /\
         match fst (_rollback_device_config self device config) with
         | Returns r => outcome = r
         | Raises e => outcome = Faulted (name device) e (utcnow_isoformat self)
         end) /\
    (forall p, rtc (Pool.step tasks) (Pool.submit tasks) p ->
               nf (Pool.step tasks) p ->
               Pool.gathered p = Some tasks).
Proof.
  intros target_devices tasks.
  destruct (rollback_config_batch self config_id devices config Hfound Htargets)
    as [results [Hres [Hlen Hidx]]].
  unfold batch_result in Hres.
  do 3 eexists. split; [exact Hres|]. split; [exact Hlen|]. split.
  - intros i device Hi.
    destruct (Hidx i device Hi) as [outcome [Ho Hw]].
    exists outcome. split; [exact Ho|]. split; [|exact Hw].
    destruct (_rollback_device_config self device config).1 as [r|e] eqn:E.
    + subst outcome. by eapply worker_outcome_device.
    + by subst outcome.
  - intros p. apply PoolFacts.gathered_in_task_order.
Qed.

(** C2. A batch that starts device work reports overall success exactly
    when some outcome is successful, and its summary counts the
    outcomes, the successful ones, and the rest as failed. *)
Theorem rollback_overall_success (config_id : string) (devices : option (list string))
    (config : Configuration)
    (Hfound : query_configuration self config_id = Returns (Some config))
    (Htargets : rollback_targets self config devices <> []) :
  exists ok results summary calls,
    rollback_config self config_id devices = (RollbackBatch ok results summary, calls) /\
    (ok = true <-> exists r, r ∈ results /\ outcome_success r = true) /\
    total_devices summary = Z.of_nat (length results) /\
    successful summary = Z.of_nat (length (List.filter outcome_success results)) /\
    failed summary = (total_devices summary - successful summary)%Z /\
    failed summary = Z.of_nat (length (List.filter (fun r => negb (outcome_success r)) results)).
Proof.
  destruct (rollback_config_batch self config_id devices config Hfound Htargets)
    as [results [Hres _]].
  unfold batch_result in Hres.
  do 4 eexists. split; [exact Hres|]. cbn [total_devices successful failed].
  rewrite successful_rollbacks_count.
  pose proof (filter_split_length outcome_success results) as Hsplit.
  repeat split; try lia.
  - intros Hok. apply Z.ltb_lt in Hok. apply filter_nonempty_iff. lia.
  - intros Hex. apply Z.ltb_lt. apply filter_nonempty_iff in Hex. lia.
Qed.


(** C7. When no row has the given id, the rollback returns a single
    top-level error, without a per-device list, and no task is created;
    when the session itself works, the error is the not-found one. *)
Theorem rollback_config_not_found (config_id : string) (devices : option (list string))
    (Habsent : forall c, c ∈ db_table self -> id c <> config_id) :
  (exists error, rollback_config self config_id devices = (RollbackError error, [])) /\
  (db_lookup_fault self = None ->
     rollback_config self config_id devices =
       (RollbackError ("Configuration " +:+ config_id +:+ " not found"), [])).
Proof.
  assert (Hfind : List.find (fun c => String.eqb (id c) config_id) (db_table self) = None).
  { destruct (List.find _ _) as [c|] eqn:E; [|reflexivity].
    apply find_some in E as [Hin Heq]. apply String.eqb_eq in Heq.
    exfalso. eapply Habsent; [|exact Heq]. by apply list_elem_of_In. }
  unfold rollback_config, query_configuration. rewrite Hfind.
  destruct (db_lookup_fault self); split; eauto; discriminate.
Qed.

(** C8. A worker that is past its head first attempts the backup and
    then pushes the stored text of the configuration, whatever the
    backup did. Its outcome is that of the push: the success and the
    message of what the push returned, or the failure dict when the
    push raised. A backup that raises is turned into a failure dict
    without a backup id, and the outcome then carries no backup id. *)
Theorem rollback_worker_backup_then_push (device : Device) (config : Configuration)
    (Hentered : logger_info_fault self device = None) :
  let params := _get_connection_params device in
  let worker := _rollback_device_config self device config in
  snd worker = [BackupAttempt (name device); ConfigPush params (configuration config)] /\
  (forall result, _execute_deployment self params (configuration config) = Returns result ->
     fst worker = Returns (Pushed (name device)
                             (default false (push_success result))
                             (default "" (push_message result))
                             (bk_backup_id (_create_device_backup self device))
                             (utcnow_isoformat self))) /\
  (forall e, _execute_deployment self params (configuration config) = Raises e ->
     fst worker = Returns (Faulted (name device) e (utcnow_isoformat self))) /\
  (forall e, create_backup (backup_manager self) device = Raises e ->
     _create_device_backup self device =
       {| bk_success := false; bk_backup_id := None; bk_error := Some e |} /\
     exists outcome, fst worker = Returns outcome /\ outcome_backup_id outcome = None).
Proof.
  intros params worker. unfold worker, _rollback_device_config.
  rewrite Hentered. fold params.
  destruct (_execute_deployment self params (configuration config)) as [result|e'] eqn:Hpush;
    cbn [fst snd].
  - split; [reflexivity|]. split; [by intros ? [= <-]|]. split; [discriminate|].
    intros e He. unfold _create_device_backup. rewrite He.
    split; [reflexivity|]. eexists. split; reflexivity.
  - split; [reflexivity|]. split; [discriminate|]. split; [by intros ? [= <-]|].
    intros e He. unfold _create_device_backup. rewrite He.
    split; [reflexivity|]. eexists. split; reflexivity.
Qed.

(** C9. In every state that a batch can reach, at most five workers are
    inside the semaphore, there is a worker for each target, the batch
    cannot run forever, and it cannot stop before every worker is done
    with what it yields kept at its own position. *)
Theorem rollback_pool_bounded (config : Configuration) (target_devices : list Device)
    (p : Pool.pool (pyresult RollbackOutcome * list GatewayCall))
    (Hreach : rtc (Pool.step (rollback_tasks self config target_devices))
                  (Pool.submit (rollback_tasks self config target_devices)) p) :
  Pool.in_flight p <= 5 /\
  Pool.in_flight p + Pool.sem_value p = 5 /\
  length (Pool.slots p) = length target_devices /\
  sn (Pool.step (rollback_tasks self config target_devices)) p /\
  (nf (Pool.step (rollback_tasks self config target_devices)) p ->
     Pool.slots p = map Pool.Done (rollback_tasks self config target_devices)).
Proof.
  pose proof (PoolFacts.reachable_inv _ p Hreach) as Hinv.
  pose proof Hinv as (Hsem & Hlen & _).
  unfold Pool.semaphore_limit in Hsem.
  split; [lia|]. split; [exact Hsem|]. split.
  { rewrite Hlen. unfold rollback_tasks. by rewrite length_map. }
  split; [apply PoolFacts.step_sn|].
  by apply PoolFacts.nf_all_done.
Qed.

End RollbackProperties.

Example split_lines :
  PyStr.split PyStr.newline Lab.running_config =
    ["hostname core-sw1"; "ip ssh version 2"; "line vty 0 4"; " transport input ssh"; ""].
Proof. reflexivity. Qed.

Example split_empty : PyStr.split PyStr.newline "" = [""].
Proof. reflexivity. Qed.

Example contains_empty_pattern : PyStr.contains "" "" = true.
Proof. reflexivity. Qed.

Example round1_tie_to_even :
  PyFloat.round1 (S754_finite false 25 (-2)) = PyFloat.of_tenths false 62.
Proof. reflexivity. Qed.

Example score_two_of_three :
  (x ← compliance_score 2 3; Returns (py_round1 x)) = Returns score_66_7.
Proof. vm_compute. reflexivity. Qed.

Example score_all_passed :
  (x ← compliance_score 3 3; Returns (py_round1 x)) =
    Returns (PyFloat (PyFloat.of_tenths false 1000)).
Proof. vm_compute. reflexivity. Qed.

(** A rollback of [cfg-1] without a device list: [core-sw1] is rolled
    back with its backup taken, [edge-rt1] is rolled back although its
    backup failed, and the fault of the worker of [dist-sw2] is turned
    into a failure outcome under its name. *)
Example rollback_cfg_1 :
  rollback_config Lab.manager "cfg-1" None =
    (RollbackBatch true
       [ Pushed "core-sw1" true "Configuration applied" (Some "bk-core-sw1") "2024-05-01T12:00:00";
         Pushed "edge-rt1" true "Configuration applied" None "2024-05-01T12:00:00";
         Faulted "dist-sw2" "log handler failed" "2024-05-01T12:00:00" ]
       {| total_devices := 3; successful := 2; failed := 1 |},
     [ [BackupAttempt "core-sw1"; ConfigPush (_get_connection_params Lab.core_sw1) "hostname core-sw1"];
       [BackupAttempt "edge-rt1"; ConfigPush (_get_connection_params Lab.edge_rt1) "hostname core-sw1"];
       [] ]).
Proof. vm_compute. reflexivity. Qed.

(** The only device of [dep-8] cannot be reached: the batch fails as a
    whole but still reports its device. *)
Example rollback_cfg_4 :
  fst (rollback_config Lab.manager "cfg-4" None) =
    RollbackBatch false
      [ Faulted "lab-sw9" "timed out" "2024-05-01T12:00:00" ]
      {| total_devices := 1; successful := 0; failed := 1 |}.
Proof. vm_compute. reflexivity. Qed.

Example rollback_unknown_devices :
  rollback_config Lab.manager "cfg-1" (Some ["no-such-device"]) =
    (RollbackError "No valid devices found", []).
Proof. vm_compute. reflexivity. Qed.

Lemma lab_cfg_1_found : query_configuration Lab.manager "cfg-1" = Returns (Some Lab.cfg_1).
Proof. reflexivity. Defined.

Lemma lab_cfg_1_targets :
  rollback_targets Lab.manager Lab.cfg_1 None = [Lab.core_sw1; Lab.edge_rt1; Lab.dist_sw2].
Proof. reflexivity. Defined.

Lemma lab_cfg_1_has_targets : rollback_targets Lab.manager Lab.cfg_1 None <> [].
Proof. rewrite lab_cfg_1_targets. discriminate. Defined.

Lemma rollback_results_aligned_witness :
  query_configuration Lab.manager "cfg-1" = Returns (Some Lab.cfg_1) /\
  exists ok results summary,
    fst (rollback_config Lab.manager "cfg-1" None) = RollbackBatch ok results summary /\
    length results = 3 /\
    exists outcome,
      results !! 2 = Some outcome /\
      outcome_device outcome = "dist-sw2" /\
      outcome = Faulted "dist-sw2" "log handler failed" "2024-05-01T12:00:00".
Proof.
  split; [exact lab_cfg_1_found|].
  destruct (rollback_results_aligned Lab.manager "cfg-1" None Lab.cfg_1
              lab_cfg_1_found lab_cfg_1_has_targets)
    as (ok & results & summary & Hres & Hlen & Hidx & _).
  exists ok, results, summary.
  split; [by rewrite Hres|]. split; [exact Hlen|].
  destruct (Hidx 2 Lab.dist_sw2 eq_refl) as (outcome & Ho & Hd & Hw).
  exists outcome. split; [exact Ho|]. split; [exact Hd|exact Hw].
Defined.

Lemma rollback_overall_success_witness :
  rollback_targets Lab.manager Lab.cfg_1 None <> [] /\
  exists ok results summary calls,
    rollback_config Lab.manager "cfg-1" None = (RollbackBatch ok results summary, calls) /\
    (ok = true <-> exists r, r ∈ results /\ outcome_success r = true) /\
    failed summary = (total_devices summary - successful summary)%Z /\
    ok = true /\ successful summary = 2%Z /\ failed summary = 1%Z.
Proof.
  split; [exact lab_cfg_1_has_targets|].
  destruct (rollback_overall_success Lab.manager "cfg-1" None Lab.cfg_1
              lab_cfg_1_found lab_cfg_1_has_targets)
    as (ok & results & summary & calls & Hres & Hok & _ & _ & Hfailed & _).
  exists ok, results, summary, calls. split; [exact Hres|]. split; [exact Hok|].
  split; [exact Hfailed|].
  rewrite rollback_cfg_1 in Hres. injection Hres as <- <- <- _. by repeat split.
Defined.

Lemma lab_policies_evaluate :
  forall entry, entry ∈ Lab.policies ->
    exists b, _check_policy_compliance Lab.manager
                (PyStr.split PyStr.newline Lab.running_config) entry.2 = Returns b.
Proof.
  intros entry Hin. apply list_elem_of_In in Hin. simpl in Hin.
  destruct Hin as [<-|[<-|[<-|[<-|[]]]]]; eexists; vm_compute; reflexivity.
Defined.

Lemma device_compliance_score_witness :
  send_show_running_config Lab.manager (_get_connection_params Lab.core_sw1)
    = Returns Lab.running_config /\
  (exists score issues,
     _check_device_compliance Lab.manager Lab.core_sw1 Lab.policies =
       ComplianceReport "core-sw1" false score 1 issues "2024-05-01T12:00:00" /\
     map issue_policy issues = ["ntp"]) /\
  (exists issues,
     _check_device_compliance Lab.manager Lab.core_sw1 default_policies =
       ComplianceReport "core-sw1" false score_66_7 1 issues "2024-05-01T12:00:00").
Proof.
  split; [reflexivity|].
  destruct (device_compliance_score Lab.manager Lab.core_sw1 Lab.running_config eq_refl)
    as [Hgeneral Hdefault].
  split.
  - destruct (Hgeneral Lab.policies) as (q & issues & _ & Hreport & Hnames & _).
    + discriminate.
    + exact lab_policies_evaluate.
    + eexists _, issues. split; [exact Hreport|exact Hnames].
  - apply Hdefault.
    + apply PyStrFacts.contains_spec. reflexivity.
    + apply PyStrFacts.contains_false. reflexivity.
    + apply PyStrFacts.contains_false. reflexivity.
Defined.

Lemma empty_policies_report_witness :
  send_show_running_config Lab.manager (_get_connection_params Lab.edge_rt1)
    = Returns Lab.running_config /\
  _check_device_compliance Lab.manager Lab.edge_rt1 (_load_compliance_policies Lab.manager) =
    ComplianceReport "edge-rt1" true (PyInt 0) 0 [] "2024-05-01T12:00:00".
Proof.
  split; [reflexivity|].
  destruct (empty_policies_report Lab.manager Lab.edge_rt1 Lab.running_config eq_refl)
    as [_ Hload].
  destruct (Hload _ eq_refl) as [_ Hreport]. exact Hreport.
Defined.


Lemma lab_cfg_404_absent : forall c, c ∈ Lab.table -> id c <> "cfg-404".
Proof.
  intros c Hin. apply list_elem_of_In in Hin. simpl in Hin.
  destruct Hin as [<-|[<-|[<-|[<-|[<-|[]]]]]]; discriminate.
Defined.

Lemma rollback_config_not_found_witness :
  (forall c, c ∈ Lab.table -> id c <> "cfg-404") /\
  rollback_config Lab.manager "cfg-404" (Some ["all"]) =
    (RollbackError "Configuration cfg-404 not found", []).
Proof.
  split; [exact lab_cfg_404_absent|].
  destruct (rollback_config_not_found Lab.manager "cfg-404" (Some ["all"]) lab_cfg_404_absent)
    as [_ Hnotfound].
  exact (Hnotfound eq_refl).
Defined.

Lemma rollback_worker_backup_then_push_witness :
  logger_info_fault Lab.manager Lab.edge_rt1 = None /\
  create_backup (backup_manager Lab.manager) Lab.edge_rt1 = Raises "backup store unreachable" /\
  snd (_rollback_device_config Lab.manager Lab.edge_rt1 Lab.cfg_1) =
    [BackupAttempt "edge-rt1";
     ConfigPush (_get_connection_params Lab.edge_rt1) "hostname core-sw1"] /\
  fst (_rollback_device_config Lab.manager Lab.edge_rt1 Lab.cfg_1) =
    Returns (Pushed "edge-rt1" true "Configuration applied" None "2024-05-01T12:00:00").
Proof.
  split; [reflexivity|]. split; [reflexivity|].
  destruct (rollback_worker_backup_then_push Lab.manager Lab.edge_rt1 Lab.cfg_1 eq_refl)
    as (Hcalls & Hpushed & _ & _).
  split; [exact Hcalls|].
  exact (Hpushed {| push_success := Some true; push_message := Some "Configuration applied" |}
           eq_refl).
Defined.

Lemma lab_five_in_flight_reachable :
  rtc (Pool.step (rollback_tasks Lab.manager Lab.cfg_1 Lab.twelve))
      (Pool.submit (rollback_tasks Lab.manager Lab.cfg_1 Lab.twelve))
      Lab.five_in_flight.
Proof.
  eapply rtc_l.
  { apply (Pool.step_acquire _ _ 0); [reflexivity|apply Nat.ltb_lt; reflexivity]. }
  eapply rtc_l.
  { apply (Pool.step_acquire _ _ 1); [reflexivity|apply Nat.ltb_lt; reflexivity]. }
  eapply rtc_l.
  { apply (Pool.step_acquire _ _ 2); [reflexivity|apply Nat.ltb_lt; reflexivity]. }
  eapply rtc_l.
  { apply (Pool.step_acquire _ _ 3); [reflexivity|apply Nat.ltb_lt; reflexivity]. }
  eapply rtc_l.
  { apply (Pool.step_acquire _ _ 4); [reflexivity|apply Nat.ltb_lt; reflexivity]. }
  apply rtc_refl.
Defined.

Lemma rollback_pool_bounded_witness :
  Pool.in_flight Lab.five_in_flight = 5 /\
  Pool.in_flight Lab.five_in_flight <= 5 /\
  length (Pool.slots Lab.five_in_flight) = length Lab.twelve /\
  sn (Pool.step (rollback_tasks Lab.manager Lab.cfg_1 Lab.twelve)) Lab.five_in_flight.
Proof.
  split; [reflexivity|].
  destruct (rollback_pool_bounded Lab.manager Lab.cfg_1 Lab.twelve Lab.five_in_flight
              lab_five_in_flight_reachable)
    as (Hle & _ & Hlen & Hsn & _).
  split; [exact Hle|]. split; [exact Hlen|exact Hsn].
Defined.

(** With all five permits taken, no sixth worker can enter. *)
Lemma lab_sixth_worker_waits (q : Pool.pool (pyresult RollbackOutcome * list GatewayCall)) :
  Pool.step (rollback_tasks Lab.manager Lab.cfg_1 Lab.twelve) Lab.five_in_flight q ->
  Pool.in_flight q = 4.
Proof.
  inversion 1 as [p i Hq Hpos | p i r Hfl Hr]; subst.
  - simpl in Hpos. lia.
  - unfold Pool.in_flight. simpl Pool.slots.
    pose proof (PoolFacts.in_flight_insert _ _ _ (Pool.Done r) Hfl) as Hc.
    simpl in Hc. simpl. lia.
Qed.

(** The claim of C3 as the specification words it, for every non-empty
    policy mapping, fails on a mapping one of whose patterns [re.search]
    refuses: the fault is caught and the device is reported with an error
    and without a score. *)
Lemma unbalanced_regex_no_score :
  _check_device_compliance Lab.manager Lab.core_sw1 Lab.unbalanced_policies =
    ComplianceError "core-sw1" "missing ), unterminated subpattern at position 0"
      "2024-05-01T12:00:00" /\
  ~ (forall (self : ConfigManager) (device : Device) (text : string)
            (policies : list (string * CompliancePolicy)),
       send_show_running_config self (_get_connection_params device) = Returns text ->
       policies <> [] ->
       exists compliant score issues_count issues timestamp,
         _check_device_compliance self device policies =
           ComplianceReport (name device) compliant score issues_count issues timestamp).
Proof.
  split; [reflexivity|].
  intros H.
  destruct (H Lab.manager Lab.core_sw1 Lab.running_config Lab.unbalanced_policies eq_refl)
    as (c & sc & n & issues & ts & Hreport); [discriminate|].
  vm_compute in Hreport. discriminate Hreport.
Qed.

(** ** More on lines and substrings *)

Module PyStrLines.
Import PyStr.

Lemma append_assoc a b c : (a +:+ b) +:+ c = a +:+ (b +:+ c).
Proof.
  induction a as [|x a IH]; [reflexivity|].
  by rewrite !PyStrFacts.append_cons, IH.
Qed.

Lemma append_nil_r a : a +:+ "" = a.
Proof.
  induction a as [|x a IH]; [reflexivity|].
  by rewrite PyStrFacts.append_cons, IH.
Qed.

Lemma substring_of_refl s : substring_of s s.
Proof. exists "", "". by rewrite append_nil_r. Qed.

Lemma substring_of_trans a b c :
  substring_of a b -> substring_of b c -> substring_of a c.
Proof.
  intros (p1 & q1 & ->) (p2 & q2 & ->).
  exists (p2 +:+ p1), (q1 +:+ q2). by rewrite !append_assoc.
Qed.

(** A piece of a joined text occurs in it. *)
Lemma join_elem sep (l : list string) line :
  line ∈ l -> substring_of line (join sep l).
Proof.
  induction l as [|x rest IH]; intros Hin; [by apply elem_of_nil in Hin|].
  destruct rest as [|y rest'].
  - apply list_elem_of_singleton in Hin as ->. apply substring_of_refl.
  - rewrite PyStrFacts.join_cons_cons.
    apply elem_of_cons in Hin as [->|Hin].
    + exists "", (sep +:+ join sep (y :: rest')). reflexivity.
    + destruct (IH Hin) as (p & q & Hj). rewrite Hj.
      exists (x +:+ sep +:+ p), q. by rewrite !append_assoc.
Qed.

Lemma split_elem sep text line :
  line ∈ split sep text -> substring_of line text.
Proof.
  intros Hin. rewrite <- (PyStrFacts.join_split sep text). by apply join_elem.
Qed.

Lemma prefix_empty s : String.prefix "" s = true.
Proof. by destruct s. Qed.

Lemma contains_char_nil c : contains (String c "") "" = false.
Proof. reflexivity. Qed.

Lemma contains_char_cons c a s :
  contains (String c "") (String a s) =
    (if ascii_dec c a then true else false) || contains (String c "") s.
Proof.
  cbn [contains String.prefix]. destruct (ascii_dec c a); [|reflexivity].
  by rewrite prefix_empty.
Qed.

(** No piece of a split text holds the separator. *)
Lemma split_no_sep sep text line :
  line ∈ split sep text -> contains (String sep "") line = false.
Proof.
  revert line. induction text as [|a r IH]; intros line Hin.
  - apply list_elem_of_singleton in Hin as ->. reflexivity.
  - cbn [split] in Hin. destruct (Ascii.eqb a sep) eqn:E.
    + apply elem_of_cons in Hin as [->|Hin]; [reflexivity|by apply IH].
    + pose proof (PyStrFacts.split_nonempty sep r) as Hne.
      destruct (split sep r) as [|h t]; [congruence|].
      apply elem_of_cons in Hin as [->|Hin].
      * rewrite contains_char_cons.
        destruct (ascii_dec sep a) as [->|_].
        { by rewrite Ascii.eqb_refl in E. }
        apply IH. by left.
      * apply IH. by right.
Qed.

Lemma prefix_contains pat s : String.prefix pat s = true -> contains pat s = true.
Proof.
  destruct s as [|a s]; cbn [contains]; [done|].
  intros ->. reflexivity.
Qed.

Lemma contains_cons pat a s : contains pat s = true -> contains pat (String a s) = true.
Proof. cbn [contains]. intros ->. apply orb_true_r. Qed.

(** A pattern without the separator that starts a text starts its
    first piece. *)
Lemma prefix_first_piece sep pat :
  contains (String sep "") pat = false ->
  forall s h t, String.prefix pat s = true -> split sep s = h :: t ->
                String.prefix pat h = true.
Proof.
  induction pat as [|a p IH]; intros Hsep s h t Hpre Hsplit.
  - apply prefix_empty.
  - rewrite contains_char_cons in Hsep. apply orb_false_iff in Hsep as [Ha Hp].
    destruct s as [|b s']; [discriminate|].
    cbn [String.prefix] in Hpre.
    destruct (ascii_dec a b) as [<-|]; [|discriminate].
    cbn [split] in Hsplit.
    destruct (Ascii.eqb a sep) eqn:E.
    { apply Ascii.eqb_eq in E. subst. by destruct (ascii_dec sep sep). }
    pose proof (PyStrFacts.split_nonempty sep s') as Hne.
    destruct (split sep s') as [|h' t'] eqn:E'; [congruence|].
    injection Hsplit as <- <-.
    cbn [String.prefix]. destruct (ascii_dec a a); [|congruence].
    by eapply IH.
Qed.

(** A pattern without the separator that occurs in a text occurs in
    one of its pieces. *)
Lemma contains_in_piece sep pat text :
  contains (String sep "") pat = false ->
  contains pat text = true ->
  existsb (contains pat) (split sep text) = true.
Proof.
  intros Hsep. induction text as [|a r IH]; intros Hc.
  - cbn [split existsb]. by rewrite Hc.
  - cbn [contains] in Hc. apply orb_true_iff in Hc as [Hpre|Hc].
    + pose proof (PyStrFacts.split_nonempty sep (String a r)) as Hne.
      destruct (split sep (String a r)) as [|h t] eqn:E; [congruence|].
      cbn [existsb].
      rewrite (prefix_contains _ _ (prefix_first_piece sep pat Hsep _ _ _ Hpre E)).
      reflexivity.
    + specialize (IH Hc). cbn [split].
      destruct (Ascii.eqb a sep).
      * cbn [existsb]. rewrite IH. apply orb_true_r.
      * pose proof (PyStrFacts.split_nonempty sep r) as Hne.
        destruct (split sep r) as [|h t]; [congruence|].
        cbn [existsb] in *. apply orb_true_iff in IH as [Hh|Ht].
        -- by rewrite (contains_cons _ a _ Hh).
        -- rewrite Ht. apply orb_true_r.
Qed.

(** A pattern that occurs in a piece occurs in the text. *)
Lemma contains_of_piece sep pat text :
  existsb (contains pat) (split sep text) = true -> contains pat text = true.
Proof.
  rewrite existsb_exists. intros (line & Hin & Hc).
  apply PyStrFacts.contains_spec. apply PyStrFacts.contains_spec in Hc.
  eapply substring_of_trans; [exact Hc|].
  apply (split_elem sep). by apply list_elem_of_In.
Qed.

(** A pattern that holds the separator occurs in no piece. *)
Lemma contains_no_piece sep pat text :
  contains (String sep "") pat = true ->
  existsb (contains pat) (split sep text) = false.
Proof.
  intros Hsep. destruct (existsb _ _) eqn:E; [|reflexivity].
  apply existsb_exists in E as (line & Hin & Hc).
  apply list_elem_of_In in Hin. apply (split_no_sep sep) in Hin.
  apply PyStrFacts.contains_false in Hin. destruct Hin.
  apply PyStrFacts.contains_spec in Hsep, Hc.
  by eapply substring_of_trans.
Qed.

End PyStrLines.

(** ** More on policy evaluation *)

Section PolicyKinds.
Variable self : ConfigManager.

(** On the lines of a text, a [line_exists] policy that passes makes
    the [contains] policy of the same pattern pass; the two agree when
    the pattern has no newline, and a pattern with a newline never
    passes [line_exists]. *)
Theorem line_exists_agrees_with_contains (text : string)
    (line_policy text_policy : CompliancePolicy)
    (Hline : pol_check_type line_policy = Some "line_exists")
    (Htext : pol_check_type text_policy = Some "contains")
    (Hsame : pol_pattern line_policy = pol_pattern text_policy) :
  let config_lines := PyStr.split PyStr.newline text in
  let pat := default "" (pol_pattern line_policy) in
  (_check_policy_compliance self config_lines line_policy = Returns true ->
   _check_policy_compliance self config_lines text_policy = Returns true) /\
  (PyStr.contains PyStr.nl pat = false ->
   _check_policy_compliance self config_lines line_policy =
   _check_policy_compliance self config_lines text_policy) /\
  (PyStr.contains PyStr.nl pat = true ->
   _check_policy_compliance self config_lines line_policy = Returns false).
Proof.
  intros config_lines pat.
  unfold _check_policy_compliance, config_lines.
  rewrite config_text_roundtrip, <- Hsame, Hline, Htext. fold pat. simpl.
  split; [|split].
  - intros [= H]. f_equal. by eapply PyStrLines.contains_of_piece.
  - intros Hfree. f_equal.
    destruct (PyStr.contains pat text) eqn:E.
    + by apply PyStrLines.contains_in_piece.
    + destruct (existsb _ _) eqn:E'; [|reflexivity].
      apply PyStrLines.contains_of_piece in E'. congruence.
  - intros Hnl. f_equal. by apply PyStrLines.contains_no_piece.
Qed.

Lemma contains_empty_pattern_any s : PyStr.contains "" s = true.
Proof. apply PyStrFacts.contains_spec. by exists "", s. Qed.

(** A policy without a pattern, or with the empty one, passes
    [contains] and [line_exists] and fails [not_contains] on the lines
    of every text. *)
Theorem missing_pattern_verdicts (text : string) (policy : CompliancePolicy)
    (Hpattern : pol_pattern policy = None \/ pol_pattern policy = Some "") :
  let config_lines := PyStr.split PyStr.newline text in
  let kind := default "contains" (pol_check_type policy) in
  (kind = "contains" -> _check_policy_compliance self config_lines policy = Returns true) /\
  (kind = "not_contains" -> _check_policy_compliance self config_lines policy = Returns false) /\
  (kind = "line_exists" -> _check_policy_compliance self config_lines policy = Returns true).
Proof.
  intros config_lines kind.
  assert (Hpat : default "" (pol_pattern policy) = "") by (by destruct Hpattern as [-> | ->]).
  unfold _check_policy_compliance. fold kind. rewrite Hpat.
  split; [|split]; intros ->; simpl; f_equal.
  - apply contains_empty_pattern_any.
  - by rewrite contains_empty_pattern_any.
  - unfold config_lines.
    pose proof (PyStrFacts.split_nonempty PyStr.newline text) as Hne.
    destruct (PyStr.split PyStr.newline text) as [|h t]; [congruence|].
    cbn [existsb]. by rewrite contains_empty_pattern_any.
Qed.


End PolicyKinds.

(** ** More on the compliance of one device *)

Section DeviceComplianceCases.
Variable self : ConfigManager.








End DeviceComplianceCases.

(** ** Dry-run validation, its answers *)

Section ValidateAnswers.
Variable self : ConfigManager.

Lemma validation_failed_not_missing e template :
  "Validation failed: " +:+ e <> "Template " +:+ template +:+ " not found".
Proof. rewrite !PyStrFacts.append_cons. discriminate. Qed.

(** A dry run answers that the template is not found exactly when the
    template directory has no file of that name with a text in it: the
    file is absent, reading it raises, or it is empty. *)
Theorem validate_template_not_found (template : string) (devices : list string)
    (variables : option (gmap string string)) :
  validate_config self template devices variables =
    ValidateError ("Template " +:+ template +:+ " not found") <->
  (forall content, template_dir self template = Returns (Some content) -> content = "").
Proof.
  unfold validate_config, _load_template. split.
  - intros H content Hc. rewrite Hc in H.
    destruct (content =? "")%string eqn:E; [by apply String.eqb_eq in E|].
    exfalso. revert H.
    destruct (_render_template self content _) as [rendered|e]; simpl.
    + destruct (validate_configuration self rendered "cisco_ios") as [v|e]; simpl;
        [discriminate|].
      intros [= H]; by apply validation_failed_not_missing in H.
    + intros [= H]; by apply validation_failed_not_missing in H.
  - intros H. destruct (template_dir self template) as [[content|]|e]; try reflexivity.
    rewrite (H content eq_refl). reflexivity.
Qed.

(** A dry run reports success only for a template that exists with a
    text, that renders against the sample variables, and whose
    rendering the validator accepts as [cisco_ios]; the preview is that
    rendering. The device list plays no part in the answer. *)
Theorem validate_success_sound (template : string) (devices : list string)
    (variables : option (gmap string string)) (preview : string)
    (validation_errors warnings : list string)
    (Hok : validate_config self template devices variables =
             ValidateReport true preview validation_errors warnings) :
  (exists content v,
     template_dir self template = Returns (Some content) /\
     content <> "" /\
     jinja_env self content (sample_variables variables) = Returns preview /\
     validate_configuration self preview "cisco_ios" = Returns v /\
     valid v = Some true) /\
  (forall devices', validate_config self template devices' variables =
                    ValidateReport true preview validation_errors warnings).
Proof.
  split; [|intros devices'; exact Hok].
  revert Hok. unfold validate_config, _load_template, _render_template.
  destruct (template_dir self template) as [[content|]|e]; try discriminate.
  destruct (content =? "")%string eqn:E; [discriminate|].
  apply String.eqb_neq in E.
  destruct (jinja_env self content (sample_variables variables)) as [rendered|e] eqn:Hr;
    simpl; [|discriminate].
  destruct (validate_configuration self rendered "cisco_ios") as [v|e] eqn:Hv;
    simpl; [|discriminate].
  intros [= Hvalid <- _ _].
  exists content, v. repeat split; try done.
  destruct (valid v) as [[|]|]; simpl in Hvalid; congruence.
Qed.

End ValidateAnswers.

(** ** Target devices *)

Section TargetDevices.
Variable self : ConfigManager.

Lemma omap_length_le {A B} (f : A -> option B) (l : list A) :
  length (omap f l) <= length l.
Proof.
  induction l as [|x l IH]; csimpl; [lia|]. destruct (f x); csimpl; lia.
Qed.

(** The selector [["all"]] stands for the whole inventory. Any other
    list is looked up name by name: the targets are the devices found,
    in the order of the names, never more than the names, and there is
    none exactly when no name is known. *)
Theorem target_devices_resolved (devices : list string) :
  let targets := _get_target_devices self devices in
  (devices = ["all"] -> targets = get_all_devices (device_manager self)) /\
  (devices <> ["all"] ->
     targets = omap (get_device_by_name (device_manager self)) devices /\
     length targets <= length devices /\
     (forall d, d ∈ targets <->
        exists n, n ∈ devices /\ get_device_by_name (device_manager self) n = Some d) /\
     (targets = [] <->
        forall n, n ∈ devices -> get_device_by_name (device_manager self) n = None)).
Proof.
  intros targets. unfold targets, _get_target_devices. split.
  - intros ->. by rewrite decide_True.
  - intros Hne. rewrite decide_False by done.
    split; [reflexivity|]. split; [apply omap_length_le|]. split.
    + intros d. apply list_elem_of_omap.
    + split.
      * intros Hnil n Hn.
        destruct (get_device_by_name (device_manager self) n) as [d|] eqn:E; [|reflexivity].
        assert (Hd : d ∈ omap (get_device_by_name (device_manager self)) devices).
        { apply list_elem_of_omap. eauto. }
        rewrite Hnil in Hd. by apply elem_of_nil in Hd.
      * intros Hnone.
        destruct (omap _ devices) as [|d l] eqn:E; [reflexivity|].
        assert (Hd : d ∈ omap (get_device_by_name (device_manager self)) devices).
        { rewrite E. by left. }
        apply list_elem_of_omap in Hd as (n & Hn & Hf).
        rewrite (Hnone n Hn) in Hf. discriminate.
Qed.

End TargetDevices.

(** ** Rollback, its errors and its device calls *)

Section RollbackCalls.
Variable self : ConfigManager.


(** The device calls of a rollback, target by target: a worker whose
    log call raised made none, every other one attempted the backup of
    its device and then pushed the text of the configuration that was
    found, to that device. *)
Theorem rollback_calls_shape (config_id : string) (devices : option (list string))
    (config : Configuration)
    (Hfound : query_configuration self config_id = Returns (Some config)) :
  Forall2 (fun device log =>
             (is_Some (logger_info_fault self device) /\ log = []) \/
             (logger_info_fault self device = None /\
              log = [BackupAttempt (name device);
                     ConfigPush (_get_connection_params device) (configuration config)]))
          (rollback_targets self config devices)
          (snd (rollback_config self config_id devices)).
Proof.
  assert (Htasks : forall targets,
    Forall2 (fun device log =>
             (is_Some (logger_info_fault self device) /\ log = []) \/
             (logger_info_fault self device = None /\
              log = [BackupAttempt (name device);
                     ConfigPush (_get_connection_params device) (configuration config)]))
          targets (map snd (rollback_tasks self config targets))).
  { induction targets as [|d ds IH]; simpl; constructor; [|exact IH].
    unfold _rollback_device_config.
    destruct (logger_info_fault self d) eqn:E; [left; eauto|right].
    split; [reflexivity|]. by destruct (_execute_deployment self _ _). }
  unfold rollback_config. rewrite Hfound.
  destruct (rollback_targets self config devices) as [|d ds] eqn:Ht; [constructor|].
  destruct (process_results _ _ _ _); apply Htasks.
Qed.

(** When no device list is given and reading the deployment's rows
    raises, the rollback answers that there is no valid device: the
    fault of the store is not what the caller is told. *)
Theorem rollback_store_fault_masked (config_id : string) (devices : option (list string))
    (config : Configuration) (e : string)
    (Hfound : query_configuration self config_id = Returns (Some config))
    (Homitted : devices = None \/ devices = Some [])
    (Hfault : db_history_fault self = Some e) :
  rollback_config self config_id devices = (RollbackError "No valid devices found", []).
Proof.
  unfold rollback_config. rewrite Hfound.
  assert (Ht : rollback_targets self config devices = []).
  { unfold rollback_targets, _get_devices_from_deployment.
    destruct Homitted as [-> | ->]; by rewrite Hfault. }
  by rewrite Ht.
Qed.

End RollbackCalls.

(** ** What a batch tells its callers *)

Section BatchOutcomes.
Variable self : ConfigManager.

Lemma batch_success_existsb (results : list RollbackOutcome) :
  (0 <? successful_rollbacks results)%Z = existsb outcome_success results.
Proof.
  apply eq_true_iff_eq. rewrite Z.ltb_lt, successful_rollbacks_count, existsb_exists.
  pose proof (filter_nonempty_iff outcome_success results) as H.
  split.
  - intros Hpos. destruct H as [H _]. destruct H as (r & Hin & Hr); [lia|].
    exists r. split; [by apply list_elem_of_In|done].
  - intros (r & Hin & Hr). destruct H as [_ H].
    assert (0 < length (List.filter outcome_success results)); [|lia].
    apply H. exists r. split; [by apply list_elem_of_In|done].
Qed.

(** The batch of a rollback whose configuration is found and that has
    a target: the outcomes name the targets in order, and one of them
    is successful exactly when the worker of some target returned a
    successful outcome. *)
Lemma rollback_batch_outcomes (config_id : string) (devices : option (list string))
    (config : Configuration) :
  query_configuration self config_id = Returns (Some config) ->
  rollback_targets self config devices <> [] ->
  exists results summary,
    rollback_config self config_id devices =
      (RollbackBatch (existsb outcome_success results) results summary,
       map snd (rollback_tasks self config (rollback_targets self config devices))) /\
    length results = length (rollback_targets self config devices) /\
    map outcome_device results = map name (rollback_targets self config devices) /\
    (existsb outcome_success results = true <->
     exists device r,
       device ∈ rollback_targets self config devices /\
       fst (_rollback_device_config self device config) = Returns r /\
       outcome_success r = true).
Proof.
  intros Hq Hne.
  destruct (rollback_config_batch self config_id devices config Hq Hne)
    as (results & Hres & Hlen & Hidx).
  unfold batch_result in Hres. rewrite batch_success_existsb in Hres.
  do 2 eexists. split; [exact Hres|]. split; [exact Hlen|]. split.
  - apply list_eq. intros i. rewrite !list_lookup_fmap.
    destruct (rollback_targets self config devices !! i) as [d|] eqn:Hd.
    + destruct (Hidx i d Hd) as (outcome & Ho & Hw). rewrite Ho. simpl. f_equal.
      destruct (_rollback_device_config self d config).1 as [r|e] eqn:E.
      * subst outcome. by eapply worker_outcome_device.
      * by subst outcome.
    + apply lookup_ge_None in Hd. rewrite <- Hlen in Hd.
      apply lookup_ge_None in Hd. by rewrite Hd.
  - rewrite existsb_exists. split.
    + intros (r & Hin & Hr). apply list_elem_of_In, list_elem_of_lookup in Hin as [i Hi].
      destruct (lookup_lt_is_Some_2 (rollback_targets self config devices) i) as [d Hd].
      { rewrite <- Hlen. by eapply lookup_lt_Some. }
      destruct (Hidx i d Hd) as (outcome & Ho & Hw).
      rewrite Hi in Ho. injection Ho as <-.
      exists d. destruct (_rollback_device_config self d config).1 as [r0|e] eqn:E.
      * exists r0. subst r0. split; [by eapply list_elem_of_lookup_2|done].
      * subst r. discriminate.
    + intros (d & r & Hin & Hw & Hr). apply list_elem_of_lookup in Hin as [i Hd].
      destruct (Hidx i d Hd) as (outcome & Ho & Hw').
      rewrite Hw in Hw'. subst outcome.
      exists r. split; [|done]. apply list_elem_of_In. by eapply list_elem_of_lookup_2.
Qed.

End BatchOutcomes.

(** ** The gateway's answers *)

Section GatewayAnswers.
Variable self : ConfigManager.

(** The rollback endpoint answers 200 exactly when some target device
    was rolled back, and then lists one outcome per target in target
    order; when no device was, it answers 400 with the bare "Rollback
    failed" and without the outcomes. *)
Theorem rollback_endpoint_per_device (data : Gateway.RollbackRequest)
    (config_id : string) (config : Configuration)
    (Hid : Gateway.rq_config_id data = Some config_id)
    (Hfound : query_configuration self config_id = Returns (Some config))
    (Htargets : rollback_targets self config (Gateway.rq_devices data) <> []) :
  let targets := rollback_targets self config (Gateway.rq_devices data) in
  let rolled_back :=
    exists device r, device ∈ targets /\
      fst (_rollback_device_config self device config) = Returns r /\
      outcome_success r = true in
  (rolled_back ->
     exists results,
       Gateway.config_rollback_post self (Some data) =
         (Gateway.RollbackDone "Rollback completed successfully" results, 200%Z) /\
       map outcome_device results = map name targets) /\
  (~ rolled_back ->
     Gateway.config_rollback_post self (Some data) =
       (Gateway.RollbackFailed "Rollback failed", 400%Z)).
Proof.
  intros targets rolled_back.
  destruct (rollback_batch_outcomes self config_id (Gateway.rq_devices data) config Hfound Htargets)
    as (results & summary & Hres & _ & Hnames & Hok).
  unfold Gateway.config_rollback_post. rewrite Hid, Hres. cbn [fst Gateway.rollback_result_dict].
  split.
  - intros Hrb. apply Hok in Hrb. rewrite Hrb. simpl. eauto.
  - intros Hrb. destruct (existsb outcome_success results) eqn:E; [|reflexivity].
    destruct Hrb. by apply Hok.
Qed.



End GatewayAnswers.

Section GatewayRequests.
Variable self : ConfigManager.

(** The loop over the required fields stops at the first field that the
    body lacks. *)
Lemma missing_field_first (required_fields : list string) (has_key : string -> bool)
    (pre post : list string) (field : string) :
  required_fields = (pre ++ field :: post)%list ->
  (forall x, x ∈ pre -> has_key x = true) ->
  has_key field = false ->
  Gateway.missing_field required_fields has_key = Some field.
Proof.
  intros -> Hpre Hfield. induction pre as [|x pre IH]; simpl.
  - by rewrite Hfield.
  - rewrite (Hpre x) by (by left). apply IH. intros y Hy. apply Hpre. by right.
Qed.

Lemma missing_field_none (required_fields : list string) (has_key : string -> bool) :
  (forall x, x ∈ required_fields -> has_key x = true) ->
  Gateway.missing_field required_fields has_key = None.
Proof.
  induction required_fields as [|x l IH]; intros H; simpl; [reflexivity|].
  rewrite (H x) by (by left). apply IH. intros y Hy. apply H. by right.
Qed.

(** A dry run through the deploy endpoint is answered from the
    validation alone: 200 with the fixed message, no result and no
    deployment id when the validation succeeded, 400 with the bare
    "Deployment failed" when the validator rejected the rendering, 400
    with the error of the validation otherwise. Neither the preview nor
    the validation errors are part of the answer, and the deployment
    is not consulted. *)
Theorem deploy_endpoint_dry_run {R : Type}
    (deploy_config : string -> list string -> gmap string string
                     -> pyresult (Gateway.OperationResult R))
    (data : Gateway.DeployRequest) (template : string) (devices : list string)
    (Htemplate : Gateway.dq_template data = Some template)
    (Hdevices : Gateway.dq_devices data = Some devices)
    (Hdry : Gateway.dq_dry_run data = Some true) :
  Gateway.config_deploy_post self deploy_config (Some data) =
    match validate_config self template devices
            (Some (default ∅ (Gateway.dq_variables data))) with
    | ValidateReport true _ _ _ =>
        (Gateway.DeployDone "Configuration validation successful" [] None, 200%Z)
    | ValidateReport false _ _ _ => (Gateway.DeployError "Deployment failed", 400%Z)
    | ValidateError e => (Gateway.DeployError e, 400%Z)
    end /\
  (forall deploy_config',
     Gateway.config_deploy_post self deploy_config' (Some data) =
     Gateway.config_deploy_post self deploy_config (Some data)).
Proof.
  assert (Hfields : Gateway.missing_field ["template"; "devices"] (Gateway.deploy_has_key data)
                    = None).
  { apply missing_field_none. intros x Hx.
    apply elem_of_cons in Hx as [->|Hx]; [|apply list_elem_of_singleton in Hx as ->];
      unfold Gateway.deploy_has_key; simpl; apply bool_decide_eq_true; by eexists. }
  unfold Gateway.config_deploy_post.
  rewrite Hfields, Htemplate, Hdevices, Hdry. cbn [default from_option Datatypes.id].
  split; [|reflexivity].
  destruct (validate_config self template devices _) as [e|[|] preview errs warns]; reflexivity.
Qed.

(** The deploy endpoint names the first required field that the body
    lacks, [template] before [devices], and answers 500 without a
    body; nothing is validated or deployed then. *)
Theorem deploy_endpoint_required_fields {R : Type}
    (deploy_config : string -> list string -> gmap string string
                     -> pyresult (Gateway.OperationResult R)) :
  Gateway.config_deploy_post self deploy_config None =
    (Gateway.DeployError "Failed to deploy configuration", 500%Z) /\
  (forall data, Gateway.dq_template data = None ->
     Gateway.config_deploy_post self deploy_config (Some data) =
       (Gateway.DeployError "Missing required field: template", 400%Z)) /\
  (forall data, is_Some (Gateway.dq_template data) -> Gateway.dq_devices data = None ->
     Gateway.config_deploy_post self deploy_config (Some data) =
       (Gateway.DeployError "Missing required field: devices", 400%Z)).
Proof.
  split; [reflexivity|]. split.
  - intros data Ht. unfold Gateway.config_deploy_post.
    rewrite (missing_field_first _ _ [] ["devices"] "template" eq_refl); [reflexivity| |].
    + intros x Hx. by apply elem_of_nil in Hx.
    + unfold Gateway.deploy_has_key. simpl. rewrite Ht. reflexivity.
  - intros data [t Ht] Hd. unfold Gateway.config_deploy_post.
    rewrite (missing_field_first _ _ ["template"] [] "devices" eq_refl); [reflexivity| |].
    + intros x Hx. apply list_elem_of_singleton in Hx as ->.
      unfold Gateway.deploy_has_key. simpl. rewrite Ht. by apply bool_decide_eq_true.
    + unfold Gateway.deploy_has_key. simpl. rewrite Hd. reflexivity.
Qed.

End GatewayRequests.

(** The endpoint that adds a device names the first of [name],
    [ip_address], [device_type] and [credentials] that the body lacks,
    whatever the device manager would answer; with all four it answers
    201 exactly when the device manager reports success. *)
Theorem device_endpoint_required_fields {V : Type}
    (add_device : gmap string V -> pyresult Gateway.AddDeviceResult)
    (data : gmap string V) :
  (forall pre field post,
     ["name"; "ip_address"; "device_type"; "credentials"] = (pre ++ field :: post)%list ->
     (forall x, x ∈ pre -> is_Some (data !! x)) ->
     data !! field = None ->
     Gateway.device_list_post add_device (Some data) =
       (Gateway.DeviceError ("Missing required field: " +:+ field), 400%Z)) /\
  ((forall x, x ∈ ["name"; "ip_address"; "device_type"; "credentials"] -> is_Some (data !! x)) ->
   (snd (Gateway.device_list_post add_device (Some data)) = 201%Z <->
    exists result, add_device data = Returns result /\
                   Gateway.ad_success result = Some true)).
Proof.
  split.
  - intros pre field post Hreq Hpre Hfield. unfold Gateway.device_list_post.
    rewrite (missing_field_first _ _ pre post field Hreq); [reflexivity| |].
    + intros x Hx. apply bool_decide_eq_true. by apply Hpre.
    + apply bool_decide_eq_false. rewrite Hfield. apply is_Some_None.
  - intros Hall. unfold Gateway.device_list_post.
    rewrite missing_field_none.
    2:{ intros x Hx. apply bool_decide_eq_true. by apply Hall. }
    destruct (add_device data) as [result|e]; simpl.
    + destruct (Gateway.ad_success result) as [[|]|] eqn:E; simpl; split;
        try discriminate; eauto;
        intros (r & Hr & Hs); injection Hr as <-; congruence.
    + split; [discriminate|]. by intros (r & Hr & _).
Qed.

(** ** The command line, its device lists and its reports *)

(** The list that [deploy] and [backup] make of [--devices] is the text
    cut at its commas, for ["all"] as for any other text: joining it
    with commas gives the text back, it is never empty, no name in it
    has a comma, and it is [["all"]] only for the text ["all"]. The
    list that [rollback] makes is absent for a missing or empty text
    and is the same cut otherwise. *)
Theorem cli_device_list_roundtrip (devices : string) :
  Cli.device_list devices = PyStr.split Cli.comma devices /\
  PyStr.join "," (Cli.device_list devices) = devices /\
  Cli.device_list devices <> [] /\
  (forall n, n ∈ Cli.device_list devices -> PyStr.contains "," n = false) /\
  (Cli.device_list devices = ["all"] <-> devices = "all") /\
  (Cli.rollback_device_list (Some devices) = None <-> devices = "") /\
  (devices <> "" -> Cli.rollback_device_list (Some devices) = Some (Cli.device_list devices)).
Proof.
  assert (Hcut : Cli.device_list devices = PyStr.split Cli.comma devices).
  { unfold Cli.device_list. destruct (devices =? "all")%string eqn:E; [|reflexivity].
    apply String.eqb_eq in E. by subst. }
  split; [exact Hcut|]. rewrite Hcut.
  split; [apply PyStrFacts.join_split|].
  split; [apply PyStrFacts.split_nonempty|].
  split; [intros n Hn; by apply (PyStrLines.split_no_sep Cli.comma devices)|].
  split; [split|split].
  - intros H. rewrite <- (PyStrFacts.join_split Cli.comma devices), H. reflexivity.
  - by intros ->.
  - unfold Cli.rollback_device_list.
    destruct (devices =? "")%string eqn:E; [split; [|done]|split].
    + intros _. by apply String.eqb_eq.
    + discriminate.
    + intros ->. discriminate.
  - intros Hne. unfold Cli.rollback_device_list.
    apply String.eqb_neq in Hne. by rewrite Hne.
Qed.

Section CliReports.
Variable self : ConfigManager.

(** A dry run on the command line prints that the validation was
    successful and returns, whatever the validation answered: after a
    validation error the preview is "No preview available", after a
    report, accepted or not, it is the rendering. The deployment is not
    consulted. *)
Theorem cli_dry_run_reports_success
    (json_loads : string -> pyresult (gmap string string))
    (deploy_config : string -> list string -> gmap string string
                     -> pyresult (Gateway.OperationResult Cli.DeviceResult))
    (template devices : string) (variables : option string) (vars : gmap string string)
    (Hvars : ((variables = None \/ variables = Some "") /\ vars = ∅) \/
             (exists text, variables = Some text /\ text <> "" /\
                           json_loads text = Returns vars)) :
  exists last,
    Cli.deploy self json_loads deploy_config template devices variables true =
      ([Cli.Text ("🚀 Deploying configuration template: " +:+ template) (Some "bold green");
        Cli.Text "✅ Configuration validation successful!" (Some "bold green");
        Cli.Text "📋 Preview:" (Some "bold cyan");
        Cli.Text last None],
       None) /\
    (forall e,
       validate_config self template (Cli.device_list devices) (Some vars) = ValidateError e ->
       last = "No preview available") /\
    (forall ok preview errs warns,
       validate_config self template (Cli.device_list devices) (Some vars)
         = ValidateReport ok preview errs warns ->
       last = preview).
Proof.
  exists (Cli.preview_text (validate_config self template (Cli.device_list devices) (Some vars))).
  split.
  - unfold Cli.deploy.
    destruct Hvars as [[[-> | ->] ->] | (text & -> & Hne & Hj)]; try reflexivity.
    apply String.eqb_neq in Hne. by rewrite Hne, Hj.
  - split; [by intros e ->|by intros ok preview errs warns ->].
Qed.

(** The [rollback] command, for a configuration that is found and has
    a target. Declined at the prompt, it prints that it is cancelled
    and makes no device call. Otherwise, when some device was rolled
    back it prints a table with one row per target, in target order;
    when none was, it prints "Rollback failed: None" and exits with 1,
    without a table, although every target was worked on. *)
Theorem cli_rollback_reports (confirmed : bool) (config_id : string)
    (devices : option string) (confirm : bool) (config : Configuration)
    (Hfound : query_configuration self config_id = Returns (Some config))
    (Htargets : rollback_targets self config (Cli.rollback_device_list devices) <> []) :
  let targets := rollback_targets self config (Cli.rollback_device_list devices) in
  let rolled_back :=
    exists device r, device ∈ targets /\
      fst (_rollback_device_config self device config) = Returns r /\
      outcome_success r = true in
  let banner :=
    Cli.Text ("⏪ Rolling back to configuration: " +:+ config_id) (Some "bold yellow") in
  (confirm = false -> confirmed = false ->
     Cli.rollback self confirmed config_id devices confirm =
       ([Cli.Text "🚫 Rollback cancelled" (Some "bold yellow")], None, [])) /\
  (confirm = true \/ confirmed = true ->
     (rolled_back ->
        exists rows calls,
          Cli.rollback self confirmed config_id devices confirm =
            ([banner;
              Cli.Text "✅ Rollback completed successfully!" (Some "bold green");
              Cli.Table "Rollback Results" Cli.results_columns rows],
             None, calls) /\
          map (fun row => head row.1) rows = map (fun device => Some (name device)) targets) /\
     (~ rolled_back ->
        exists calls,
          Cli.rollback self confirmed config_id devices confirm =
            ([banner; Cli.Text "❌ Rollback failed: None" (Some "bold red")],
             Some 1%Z, calls) /\
          length calls = length targets)).
Proof.
  intros targets rolled_back banner. split.
  - intros -> ->. reflexivity.
  - intros Hgo.
    assert (Hasked : negb confirm && negb confirmed = false).
    { destruct Hgo as [-> | ->]; [reflexivity|apply andb_false_r]. }
    destruct (rollback_batch_outcomes self config_id (Cli.rollback_device_list devices)
                config Hfound Htargets)
      as (results & summary & Hres & Hlen & Hnames & Hok).
    unfold Cli.rollback. rewrite Hasked, Hres.
    cbn [fst snd Gateway.rollback_result_dict Gateway.op_success Gateway.op_error
         Gateway.op_results default from_option Datatypes.id].
    split.
    + intros Hrb. apply Hok in Hrb. rewrite Hrb.
      do 2 eexists. split; [reflexivity|].
      fold targets in Hnames. rewrite <- (map_map name Some), <- Hnames.
      rewrite !map_map. reflexivity.
    + intros Hrb. destruct (existsb outcome_success results) eqn:E.
      { destruct Hrb. by apply Hok. }
      eexists. split; [reflexivity|].
      unfold rollback_tasks. by rewrite !length_map.
Qed.

End CliReports.

(** ** The further properties on the installation *)

Lemma line_exists_agrees_with_contains_witness :
  pol_pattern Site.vty_line_policy = pol_pattern Site.vty_text_policy /\
  _check_policy_compliance Lab.manager (PyStr.split PyStr.newline Lab.running_config)
    Site.vty_line_policy =
  _check_policy_compliance Lab.manager (PyStr.split PyStr.newline Lab.running_config)
    Site.vty_text_policy.
Proof.
  split; [reflexivity|].
  destruct (line_exists_agrees_with_contains Lab.manager Lab.running_config
              Site.vty_line_policy Site.vty_text_policy eq_refl eq_refl eq_refl)
    as (_ & Hagree & _).
  apply Hagree. reflexivity.
Defined.

Lemma missing_pattern_verdicts_witness :
  pol_pattern Site.no_pattern_policy = None /\
  _check_policy_compliance Lab.manager (PyStr.split PyStr.newline Lab.running_config)
    Site.no_pattern_policy = Returns false.
Proof.
  split; [reflexivity|].
  destruct (missing_pattern_verdicts Lab.manager Lab.running_config Site.no_pattern_policy
              (or_introl eq_refl))
    as (_ & Hnot & _).
  apply Hnot. reflexivity.
Defined.



Lemma lab_base_template_validates :
  validate_config Lab.manager "base.j2" ["no-such-device"] None =
    ValidateReport true "hostname {{ hostname }}" [] [].
Proof. reflexivity. Defined.

Lemma validate_success_sound_witness :
  validate_config Lab.manager "base.j2" ["no-such-device"] None =
    ValidateReport true "hostname {{ hostname }}" [] [] /\
  validate_config Lab.manager "base.j2" [] None =
    ValidateReport true "hostname {{ hostname }}" [] [].
Proof.
  split; [exact lab_base_template_validates|].
  destruct (validate_success_sound Lab.manager "base.j2" ["no-such-device"] None
              "hostname {{ hostname }}" [] [] lab_base_template_validates)
    as [_ Hany].
  apply Hany.
Defined.



Lemma rollback_calls_shape_witness :
  query_configuration Lab.manager "cfg-1" = Returns (Some Lab.cfg_1) /\
  length (snd (rollback_config Lab.manager "cfg-1" (Some ["edge-rt1"; "lab-sw9"]))) = 2.
Proof.
  split; [exact lab_cfg_1_found|].
  pose proof (rollback_calls_shape Lab.manager "cfg-1" (Some ["edge-rt1"; "lab-sw9"]) Lab.cfg_1
                lab_cfg_1_found) as H.
  apply Forall2_length in H. rewrite <- H. reflexivity.
Defined.

Lemma site_cfg_1_found : query_configuration Site.locked_store "cfg-1" = Returns (Some Lab.cfg_1).
Proof. reflexivity. Defined.

Lemma rollback_store_fault_masked_witness :
  db_history_fault Site.locked_store = Some "database is locked" /\
  rollback_config Site.locked_store "cfg-1" None =
    (RollbackError "No valid devices found", []).
Proof.
  split; [reflexivity|].
  exact (rollback_store_fault_masked Site.locked_store "cfg-1" None Lab.cfg_1
           "database is locked" site_cfg_1_found (or_introl eq_refl) eq_refl).
Defined.

Lemma lab_core_sw1_rolled_back :
  exists device r,
    device ∈ rollback_targets Lab.manager Lab.cfg_1 None /\
    fst (_rollback_device_config Lab.manager device Lab.cfg_1) = Returns r /\
    outcome_success r = true.
Proof.
  exists Lab.core_sw1. eexists. split; [|split; reflexivity].
  rewrite lab_cfg_1_targets. by left.
Defined.

Lemma rollback_endpoint_per_device_witness :
  Gateway.rq_config_id Site.rollback_request = Some "cfg-1" /\
  exists results,
    Gateway.config_rollback_post Lab.manager (Some Site.rollback_request) =
      (Gateway.RollbackDone "Rollback completed successfully" results, 200%Z) /\
    map outcome_device results = ["core-sw1"; "edge-rt1"; "dist-sw2"].
Proof.
  split; [reflexivity|].
  destruct (rollback_endpoint_per_device Lab.manager Site.rollback_request "cfg-1" Lab.cfg_1
              eq_refl lab_cfg_1_found lab_cfg_1_has_targets)
    as [Hdone _].
  destruct (Hdone lab_core_sw1_rolled_back) as (results & Hpost & Hnames).
  exists results. split; [exact Hpost|]. rewrite Hnames. reflexivity.
Defined.

Lemma deploy_endpoint_dry_run_witness :
  Gateway.dq_dry_run Site.dry_run_request = Some true /\
  Gateway.config_deploy_post Lab.manager (@Site.deploy_config Cli.DeviceResult)
    (Some Site.dry_run_request) =
    (Gateway.DeployDone "Configuration validation successful" [] None, 200%Z).
Proof.
  split; [reflexivity|].
  destruct (deploy_endpoint_dry_run Lab.manager (@Site.deploy_config Cli.DeviceResult)
              Site.dry_run_request "base.j2" ["core-sw1"] eq_refl eq_refl eq_refl)
    as [Hanswer _].
  rewrite Hanswer. reflexivity.
Defined.

Lemma cli_dry_run_reports_success_witness :
  validate_config Lab.manager "missing.j2" (Cli.device_list "core-sw1") (Some ∅) =
    ValidateError "Template missing.j2 not found" /\
  Cli.deploy Lab.manager Site.json_loads Site.deploy_config "missing.j2" "core-sw1"
    (Some "{}") true =
    ([Cli.Text "🚀 Deploying configuration template: missing.j2" (Some "bold green");
      Cli.Text "✅ Configuration validation successful!" (Some "bold green");
      Cli.Text "📋 Preview:" (Some "bold cyan");
      Cli.Text "No preview available" None],
     None).
Proof.
  split; [reflexivity|].
  destruct (cli_dry_run_reports_success Lab.manager Site.json_loads Site.deploy_config
              "missing.j2" "core-sw1" (Some "{}") ∅)
    as (last & Hout & Herr & _).
  { right. exists "{}". split; [reflexivity|]. split; [discriminate|reflexivity]. }
  rewrite Hout, (Herr "Template missing.j2 not found" eq_refl). reflexivity.
Defined.

Lemma lab_cfg_4_found :
  exists config, query_configuration Lab.manager "cfg-4" = Returns (Some config) /\
                 rollback_targets Lab.manager config (Cli.rollback_device_list None) = [Lab.lab_sw9].
Proof. eexists. split; reflexivity. Defined.

Lemma cli_rollback_reports_witness :
  exists calls,
    Cli.rollback Lab.manager false "cfg-4" None true =
      ([Cli.Text "⏪ Rolling back to configuration: cfg-4" (Some "bold yellow");
        Cli.Text "❌ Rollback failed: None" (Some "bold red")],
       Some 1%Z, calls) /\
    length calls = 1.
Proof.
  destruct lab_cfg_4_found as (config & Hfound & Htargets).
  assert (Hne : rollback_targets Lab.manager config (Cli.rollback_device_list None) <> []).
  { rewrite Htargets. discriminate. }
  destruct (cli_rollback_reports Lab.manager false "cfg-4" None true config Hfound Hne)
    as [_ Hrun].
  destruct (Hrun (or_introl eq_refl)) as [_ Hfailed].
  destruct Hfailed as (calls & Hout & Hlen).
  - intros (device & r & Hin & Hw & Hr).
    rewrite Htargets in Hin. apply list_elem_of_singleton in Hin. subst device.
    injection Hfound as <-. vm_compute in Hw. injection Hw as <-. discriminate Hr.
  - exists calls. split; [exact Hout|]. rewrite Hlen, Htargets. reflexivity.
Defined.

(** ** Names given on the command line *)

Module PyStrJoin.
Import PyStr.

Lemma split_single sep x :
  contains (String sep "") x = false -> split sep x = [x].
Proof.
  induction x as [|a x IH]; [reflexivity|].
  rewrite PyStrLines.contains_char_cons. intros H.
  apply orb_false_iff in H as [Ha Hx].
  cbn [split]. destruct (Ascii.eqb a sep) eqn:E.
  { apply Ascii.eqb_eq in E. subst. by destruct (ascii_dec sep sep). }
  by rewrite (IH Hx).
Qed.

Lemma split_app_sep sep x rest :
  contains (String sep "") x = false ->
  split sep (x +:+ String sep rest) = x :: split sep rest.
Proof.
  induction x as [|a x IH].
  - intros _. rewrite PyStrFacts.append_nil_l. cbn [split]. by rewrite Ascii.eqb_refl.
  - rewrite PyStrLines.contains_char_cons. intros H.
    apply orb_false_iff in H as [Ha Hx].
    rewrite PyStrFacts.append_cons. cbn [split].
    destruct (Ascii.eqb a sep) eqn:E.
    { apply Ascii.eqb_eq in E. subst. by destruct (ascii_dec sep sep). }
    by rewrite (IH Hx).
Qed.

(** Cutting what was joined gives the pieces back, when there is a
    piece and none holds the separator. *)
Lemma split_join sep (l : list string) :
  l <> [] ->
  (forall x, x ∈ l -> contains (String sep "") x = false) ->
  split sep (join (String sep "") l) = l.
Proof.
  induction l as [|x rest IH]; intros Hne Hall; [congruence|].
  destruct rest as [|y rest'].
  - apply split_single. apply Hall. by left.
  - rewrite PyStrFacts.join_cons_cons, PyStrFacts.append_cons, PyStrFacts.append_nil_l.
    rewrite split_app_sep by (apply Hall; by left).
    rewrite IH; [reflexivity|discriminate|].
    intros z Hz. apply Hall. by right.
Qed.

End PyStrJoin.

(** Device names without a comma, written on the command line with
    commas between them, reach the manager as the names they are, in
    their order; for [rollback] as well, unless the text is empty. *)
Theorem cli_device_names_received (names : list string)
    (Hsome : names <> [])
    (Hplain : forall n, n ∈ names -> PyStr.contains "," n = false) :
  Cli.device_list (PyStr.join "," names) = names /\
  (PyStr.join "," names <> "" ->
   Cli.rollback_device_list (Some (PyStr.join "," names)) = Some names).
Proof.
  assert (Hcut : PyStr.split Cli.comma (PyStr.join "," names) = names)
    by (by apply PyStrJoin.split_join).
  split.
  - unfold Cli.device_list.
    destruct (PyStr.join "," names =? "all")%string eqn:E; [|exact Hcut].
    apply String.eqb_eq in E. rewrite E in Hcut. exact Hcut.
  - intros Hne. unfold Cli.rollback_device_list.
    apply String.eqb_neq in Hne. by rewrite Hne, Hcut.
Qed.

Lemma lab_names_plain :
  forall n, n ∈ ["core-sw1"; "edge-rt1"] -> PyStr.contains "," n = false.
Proof.
  intros n Hn. apply list_elem_of_In in Hn. simpl in Hn.
  destruct Hn as [<-|[<-|[]]]; reflexivity.
Defined.

Lemma cli_device_names_received_witness :
  PyStr.join "," ["core-sw1"; "edge-rt1"] = "core-sw1,edge-rt1" /\
  Cli.device_list (PyStr.join "," ["core-sw1"; "edge-rt1"]) = ["core-sw1"; "edge-rt1"].
Proof.
  split; [reflexivity|].
  destruct (cli_device_names_received ["core-sw1"; "edge-rt1"]) as [Hlist _].
  - discriminate.
  - exact lab_names_plain.
  - exact Hlist.
Defined.
